(** * TUNAX tax and penalty calculation engine

    A shallow embedding of [backend/utils/calculator.py] (class
    [TaxCalculator]) together with the statements of its specification.

    Python values are embedded as follows.
    - [float] is IEEE binary64: Rocq's primitive [float], whose literals and
      operations are the ones the interpreter uses.
    - [int] is [Z].
    - [str] is [string], a sequence of code points below 256 (Latin-1).
    - an object is the finite map of its attributes, a [dict] is a finite
      map from keys to values ([gmap string pyval]).
    - a call either returns a value or raises: [outcome].
    - the loaded tariff table ([TaxCalculator._cfg]), the service
      configuration table queried through the ORM and the clock are explicit
      arguments. *)

From Stdlib Require Import ZArith Lia String Ascii Bool List.
From Stdlib Require Import Floats DecimalString.
From stdpp Require Import gmap strings.

Set Warnings "-inexact-float,-register-all".
Local Open Scope Z_scope.

(** ** Exceptions and outcomes *)

(** The exceptions of the interpreter that the code can raise, and
    [SQLAlchemyError] for those of the database layer. *)
Inductive exn : Set :=
| TypeError
| ValueError
| AttributeError
| OverflowError
| SQLAlchemyError.

Inductive outcome (A : Type) : Type :=
| Returned (a : A)
| Raised (e : exn).
Arguments Returned {A} a.
Arguments Raised {A} e.

Definition obind {A B : Type} (m : outcome A) (k : A → outcome B) : outcome B :=
  match m with
  | Returned a => k a
  | Raised e => Raised e
  end.

Notation "'do' x <- m ; k" := (obind m (fun x => k))
  (at level 10, x name, m at level 100, k at level 200,
   format "'[v' 'do'  x  <-  m ; '/' k ']'").

Definition returns {A : Type} (m : outcome A) : Prop :=
  exists a, m = Returned a.

(** ** Binary64 arithmetic on exact values *)

Module Binary64.

(** [num / den] rounded to the nearest integer, ties to even
    ([0 <= num], [0 < den]). *)
Definition round_half_even (num den : Z) : Z :=
  let q := num / den in
  let r := num mod den in
  match 2 * r ?= den with
  | Lt => q
  | Gt => q + 1
  | Eq => if Z.even q then q else q + 1
  end.

(** [num / (den * 2^e)] as a fraction of integers. *)
Definition scale_num (num e : Z) : Z := num * 2 ^ Z.max 0 (- e).
Definition scale_den (den e : Z) : Z := den * 2 ^ Z.max 0 e.

(** The exponent [ex] with [2^ex <= num/den < 2^(ex+1)]
    ([0 < num], [0 < den]). *)
Definition floor_log2 (num den : Z) : Z :=
  let ex0 := Z.log2 num - Z.log2 den in
  if scale_num num ex0 <? scale_den den ex0 then ex0 - 1 else ex0.

(** The binary64 number nearest to [num / den] (ties to even), as an
    integer significand [q <= 2^53] and the exponent [e >= -1074] of its
    last bit: the value is [q * 2^e]. *)
Definition nearest (num den : Z) : Z * Z :=
  let e := Z.max (floor_log2 num den - 52) (-1074) in
  (round_half_even (scale_num num e) (scale_den den e), e).

(** [q * 2^e] is beyond the largest finite binary64 number. *)
Definition overflows (qe : Z * Z) : bool :=
  let '(q, e) := qe in
  (971 <? e) || ((e =? 971) && (2 ^ 53 <=? q)).

Definition to_float (sign : bool) (qe : Z * Z) : float :=
  let '(q, e) := qe in
  let f := Z.ldexp (of_uint63 (Uint63.of_Z q)) e in
  if sign then (- f)%float else f.

(** The largest finite binary64 number, [(2^53 - 1) * 2^971]. *)
Definition max_finite : Z := (2 ^ 53 - 1) * 2 ^ 971.

End Binary64.

(** [float(n)] for an [int]: correctly rounded, [OverflowError] beyond the
    finite range. *)
Definition int_to_float (n : Z) : outcome float :=
  if n =? 0 then Returned 0%float
  else
    let qe := Binary64.nearest (Z.abs n) 1 in
    if Binary64.overflows qe then Raised OverflowError
    else Returned (Binary64.to_float (n <? 0) qe).

(** [round(x, ndigits)] for a [float]: the exact binary value of [x] is
    rounded to [ndigits] decimals (ties to even) and the decimal result is
    converted back to the nearest binary64 number. *)
Definition py_round (x : float) (ndigits : Z) : outcome float :=
  match Prim2SF x with
  | S754_finite s m e =>
      if 323 <? ndigits then Returned x
      else if ndigits <? -308 then Returned (0 * x)%float
      else
        let up := 10 ^ Z.max 0 ndigits in
        let down := 10 ^ Z.max 0 (- ndigits) in
        (* the digits of |x| * 10^ndigits, rounded to an integer *)
        let n := Binary64.round_half_even
                   (Binary64.scale_num (Z.pos m) (- e) * up)
                   (Binary64.scale_den 1 (- e) * down) in
        if n =? 0 then Returned (if s then (-0)%float else 0%float)
        else
          let qe := Binary64.nearest (n * down) up in
          if Binary64.overflows qe then Raised OverflowError
          else Returned (Binary64.to_float s qe)
  | _ => Returned x
  end.

(** ** Python values *)

Inductive pyval : Type :=
| PNone
| PBool (b : bool)
| PInt (n : Z)
| PFloat (x : float)
| PStr (s : string)
| PList (l : list pyval).

(** [bool(v)], the test behind [if v], [not v] and [v or w]. *)
Definition truthy (v : pyval) : bool :=
  match v with
  | PNone => false
  | PBool b => b
  | PInt n => negb (n =? 0)
  | PFloat x => negb (is_zero x)
  | PStr s => negb (String.eqb s "")
  | PList l => match l with [] => false | _ => true end
  end.

Definition py_or (v w : pyval) : pyval := if truthy v then v else w.

(** *** Strings *)

Definition lower_char (c : ascii) : ascii :=
  let n := N_of_ascii c in
  if ((65 <=? n) && (n <=? 90)
      || (192 <=? n) && (n <=? 222) && negb (n =? 215))%N
  then ascii_of_N (n + 32) else c.

Fixpoint str_lower (s : string) : string :=
  match s with
  | EmptyString => EmptyString
  | String c r => String (lower_char c) (str_lower r)
  end.

Definition is_space (c : ascii) : bool :=
  let n := N_of_ascii c in
  ((9 <=? n) && (n <=? 13) || (28 <=? n) && (n <=? 32)
   || (n =? 133) || (n =? 160))%N.

Fixpoint str_lstrip (s : string) : string :=
  match s with
  | EmptyString => EmptyString
  | String c r => if is_space c then str_lstrip r else s
  end.

Fixpoint str_rstrip (s : string) : string :=
  match s with
  | EmptyString => EmptyString
  | String c r =>
      match str_rstrip r with
      | EmptyString => if is_space c then EmptyString else String c EmptyString
      | r' => String c r'
      end
  end.

Definition str_strip (s : string) : string := str_rstrip (str_lstrip s).

(** [v.strip()]: of the values here only a [str] has the method. *)
Definition py_strip (v : pyval) : outcome string :=
  match v with
  | PStr s => Returned (str_strip s)
  | _ => Raised AttributeError
  end.

(** [str(n)] for an [int]. *)
Definition str_of_int (n : Z) : string := NilZero.string_of_int (Z.to_int n).

(** The two characters of the messages that are not ASCII. *)
Definition superscript_two : ascii := "178"%char.
Definition e_acute : ascii := "233"%char.

(** *** Objects and dictionaries *)

(** [getattr(o, name, default)] and [o.name]. *)
Definition getattr (o : gmap string pyval) (name : string) (default : pyval) : pyval :=
  match o !! name with
  | Some v => v
  | None => default
  end.

Definition attr (o : gmap string pyval) (name : string) : outcome pyval :=
  match o !! name with
  | Some v => Returned v
  | None => Raised AttributeError
  end.

(** A [dict] display [{k1: v1, ...}]. *)
Definition dict (items : list (string * pyval)) : gmap string pyval :=
  list_to_map items.

(** ** Collaborators of the calculator *)

(** The loaded tariff table, [TaxCalculator._load_config()], as far as the
    calculator reads it: the service-rate bands of [_get_service_rate] and
    the rounding precision of each section. *)
Record config : Type := Config {
  TIB_service_rates : list (Z * float);
  TIB_currency_decimals : Z;
  TTNB_currency_decimals : Z
}.

(** The embedded defaults of [_load_config]. *)
Definition default_config : config :=
  {| TIB_service_rates :=
       [(0, 8%float); (2, 10%float); (3, 12%float); (4, 14%float)];
     TIB_currency_decimals := 3;
     TTNB_currency_decimals := 3 |}.

(** The table behind [MunicipalServiceConfig.query], as [calculate_tib]
    sees it. Both counts range over the rows of the given commune that have
    [is_available = True]:
    - [count_locality c name]: those whose [locality_name] is like [name],
      ignoring case;
    - [count_commune_wide c]: those whose [locality_name] is NULL.
    A count is the outcome of running the query with [count()]: the query
    raises when it cannot be run, for instance with a commune id that the
    database cannot bind (an [int] beyond 64 bits raises [OverflowError]).
    Building the query ([MunicipalServiceConfig.query.filter_by]) runs
    nothing; the model class and the session are taken to be there. *)
Record service_table : Type := ServiceTable {
  count_locality : pyval → string → outcome nat;
  count_commune_wide : pyval → outcome nat
}.

(** Naive [datetime] values. *)
Record datetime : Type := Datetime {
  year : Z; month : Z; day : Z;
  hour : Z; minute : Z; second : Z; microsecond : Z
}.

(** An [int] that the constructors of [datetime] and [date] can take as a
    C int (32 bits); any other raises [OverflowError]. *)
Definition fits_c_int (n : Z) : bool := (- 2 ^ 31 <=? n) && (n <? 2 ^ 31).

(** [datetime(y, 1, 1)]: the year must lie in [MINYEAR..MAXYEAR]. *)
Definition datetime_jan_1 (y : Z) : outcome datetime :=
  if negb (fits_c_int y) then Raised OverflowError
  else if (1 <=? y) && (y <=? 9999) then Returned (Datetime y 1 1 0 0 0 0)
  else Raised ValueError.

Definition datetime_fields (d : datetime) : list Z :=
  [year d; month d; day d; hour d; minute d; second d; microsecond d].

Fixpoint lex_ltb (a b : list Z) : bool :=
  match a, b with
  | x :: a', y :: b' => (x <? y) || ((x =? y) && lex_ltb a' b')
  | _, _ => false
  end.

(** [a < b] on naive datetimes. *)
Definition datetime_ltb (a b : datetime) : bool :=
  lex_ltb (datetime_fields a) (datetime_fields b).

(** ** The calculator *)

Section TaxCalculator.

(** [float(s)] for a [str] [s]: the parsed number, or [ValueError]. *)
Variable float_of_str : string → outcome float.

(** [float(v)]. *)
Definition py_float (v : pyval) : outcome float :=
  match v with
  | PNone => Raised TypeError
  | PBool b => Returned (if b then 1 else 0)%float
  | PInt n => int_to_float n
  | PFloat x => Returned x
  | PStr s => float_of_str s
  | PList _ => Raised TypeError
  end.

Variable cfg : config.

Definition currency_decimals (section : string) : Z :=
  if String.eqb section "TIB" then TIB_currency_decimals cfg
  else if String.eqb section "TTNB" then TTNB_currency_decimals cfg
  else 3.

Definition _round (amount : float) (section : string) : outcome float :=
  py_round amount (currency_decimals section).

Definition _get_service_rate (num_services : Z) : float :=
  let applicable :=
    fold_left
      (fun applicable band =>
         if fst band <=? num_services then snd band else applicable)
      (TIB_service_rates cfg) 0%float in
  (applicable / 100)%float.

(** *** calculate_tib *)

(** Step 1: the category of the covered surface. *)
Definition tib_category (surface : float) : Z :=
  if (surface <=? 100)%float then 1
  else if (surface <=? 200)%float then 2
  else if (surface <=? 400)%float then 3
  else 4.

(** Step 4: the services counted for the locality, else for the whole
    commune. *)
Definition tib_services_count
    (services : service_table) (commune_id : pyval) (locality_name : string)
  : outcome nat :=
  let services_count := 0%nat in
  do services_count <-
    (if negb (String.eqb locality_name "")
     then count_locality services commune_id locality_name
     else Returned services_count);
  if (services_count =? 0)%nat
  then count_commune_wide services commune_id
  else Returned services_count.

(** Step 5: the rate of the service count. *)
Definition tib_service_rate (services_count : nat) : float :=
  if (services_count <=? 2)%nat then 0.08%float
  else if (services_count <=? 4)%nat then 0.10%float
  else if (services_count <=? 6)%nat then 0.12%float
  else 0.14%float.

Definition tib_missing_price_message (category : Z) : string :=
  "Reference price per m" +:+ String superscript_two
    (" required for category " +:+ str_of_int category).

Definition calculate_tib
    (services : service_table) (property_obj : gmap string pyval)
  : outcome (gmap string pyval) :=
  if truthy (getattr property_obj "is_exempt" (PBool false)) then
    Returned (dict [
      ("base_amount", PFloat 0);
      ("rate_percent", PFloat 0);
      ("tax_amount", PFloat 0);
      ("total_amount", PFloat 0);
      ("exemption_reason", getattr property_obj "exemption_reason" PNone)])
  else
    do surface_couverte <- attr property_obj "surface_couverte";
    do surface <- py_float surface_couverte;
    let category := tib_category surface in
    let ref_price_per_m2 := getattr property_obj "reference_price_per_m2" PNone in
    if negb (truthy ref_price_per_m2) then
      Returned (dict [("error", PStr (tib_missing_price_message category))])
    else
      do price <- py_float ref_price_per_m2;
      let assiette := (0.02 * (price * surface))%float in
      do commune_id <- attr property_obj "commune_id";
      do locality_name <-
        py_strip (py_or (getattr property_obj "delegation" PNone) (PStr ""));
      do services_count <- tib_services_count services commune_id locality_name;
      let service_rate := tib_service_rate services_count in
      let tib_amount := (assiette * service_rate)%float in
      do base_amount <- _round assiette "TIB";
      do tax_amount <- _round tib_amount "TIB";
      do total_amount <- _round tib_amount "TIB";
      Returned (dict [
        ("base_amount", PFloat base_amount);
        ("rate_percent", PFloat (service_rate * 100));
        ("tax_amount", PFloat tax_amount);
        ("total_amount", PFloat total_amount);
        ("category", PInt category);
        ("services_count", PInt (Z.of_nat services_count))]).

(** *** calculate_ttnb *)

Definition valid_zones : list string :=
  ["haute_densite"; "densite_moyenne"; "faible_densite"; "peripherique"].

Definition ZONE_TARIFFS : list (string * float) :=
  [("haute_densite", 1.200); ("densite_moyenne", 0.800);
   ("faible_densite", 0.400); ("peripherique", 0.200)]%float.

(** [d.get(key)] on a dictionary kept in insertion order. *)
Fixpoint dict_get (d : list (string * float)) (key : string) : option float :=
  match d with
  | [] => None
  | (k, v) :: d' => if String.eqb k key then Some v else dict_get d' key
  end.

Definition ttnb_missing_zone_message : string :=
  "TTNB cannot be calculated without urban zone classification per D"
    +:+ String e_acute "cret 2017-396".

Definition calculate_ttnb (land_obj : gmap string pyval)
  : outcome (gmap string pyval) :=
  if truthy (getattr land_obj "is_exempt" (PBool false)) then
    Returned (dict [
      ("base_amount", PFloat 0);
      ("rate_percent", PFloat 0);
      ("tax_amount", PFloat 0);
      ("total_amount", PFloat 0);
      ("exemption_reason", getattr land_obj "exemption_reason" PNone)])
  else
    let urban_zone := getattr land_obj "urban_zone" PNone in
    if negb (truthy urban_zone) then
      Returned (dict [
        ("error", PStr "Urban zone classification required");
        ("valid_zones", PList (map PStr valid_zones));
        ("message", PStr ttnb_missing_zone_message)])
    else
      match urban_zone with
      | PStr zone =>
          let invalid_zone :=
            Returned (dict [
              ("error", PStr ("Invalid urban zone: " +:+ zone));
              ("valid_zones", PList (map PStr (map fst ZONE_TARIFFS)))]) in
          match dict_get ZONE_TARIFFS (str_lower zone) with
          | Some tariff =>
              if is_zero tariff then invalid_zone
              else
                do surface <- py_float (getattr land_obj "surface" (PInt 0));
                if (surface <=? 0)%float then
                  Returned (dict [
                    ("error", PStr "Land surface must be greater than 0")])
                else
                  let ttnb_amount := (surface * tariff)%float in
                  do base_amount <- _round ttnb_amount "TTNB";
                  do tax_amount <- _round ttnb_amount "TTNB";
                  do total_amount <- _round ttnb_amount "TTNB";
                  Returned (dict [
                    ("base_amount", PFloat base_amount);
                    ("rate_percent", PFloat 0);
                    ("tax_amount", PFloat tax_amount);
                    ("total_amount", PFloat total_amount);
                    ("zone", urban_zone);
                    ("tariff_per_m2", PFloat tariff);
                    ("surface_m2", PFloat surface)])
          | None => invalid_zone
          end
      | _ => Raised AttributeError (* [urban_zone.lower] on a value that is no [str] *)
      end.

(** *** compute_late_payment_penalty_for_year *)

(** [utcnow] is the reading of the clock, used when [today] is [None]. *)
Definition compute_late_payment_penalty_for_year
    (utcnow : datetime)
    (tax_amount : float) (tax_year : Z) (section : string)
    (today : option datetime) : outcome float :=
  if tax_year =? 0 then Returned 0%float
  else
    let today := match today with Some t => t | None => utcnow end in
    let start_year := tax_year + 2 in
    do start <- datetime_jan_1 start_year;
    if datetime_ltb today start then Returned 0%float
    else
      let months_elapsed :=
        (year today - year start) * 12 + (month today - month start) in
      let months_elapsed := Z.max 0 months_elapsed in
      do months <- int_to_float months_elapsed;
      let penalty := (tax_amount * 0.0125 * months)%float in
      _round penalty section.

End TaxCalculator.

(** ** What the calculators read *)

(** A property that [calculate_tib] taxes: it is not exempt, and its covered
    surface, reference price, commune and locality are read as [surface],
    [price], [commune] and [locality]. *)
Record tib_reads (float_of_str : string → outcome float)
    (o : gmap string pyval)
    (surface price : float) (commune : pyval) (locality : string) : Prop := {
  tib_not_exempt : truthy (getattr o "is_exempt" (PBool false)) = false;
  tib_surface :
    ∃ v, o !! "surface_couverte" = Some v ∧ py_float float_of_str v = Returned surface;
  tib_price_present : truthy (getattr o "reference_price_per_m2" PNone) = true;
  tib_price :
    py_float float_of_str (getattr o "reference_price_per_m2" PNone) = Returned price;
  tib_commune : o !! "commune_id" = Some commune;
  tib_locality :
    py_strip (py_or (getattr o "delegation" PNone) (PStr "")) = Returned locality
}.


(** Inputs on which the calculators are defined: the numbers can be
    converted by [float], the commune is given, and locality and zone are
    strings when they are given at all. *)
Record tib_well_formed (float_of_str : string → outcome float)
    (o : gmap string pyval) : Prop := {
  wf_surface_couverte :
    ∃ v, o !! "surface_couverte" = Some v ∧ returns (py_float float_of_str v);
  wf_reference_price :
    truthy (getattr o "reference_price_per_m2" PNone) = true →
    returns (py_float float_of_str (getattr o "reference_price_per_m2" PNone));
  wf_commune_id : is_Some (o !! "commune_id");
  wf_delegation :
    returns (py_strip (py_or (getattr o "delegation" PNone) (PStr "")))
}.

Record ttnb_well_formed (float_of_str : string → outcome float)
    (o : gmap string pyval) : Prop := {
  wf_urban_zone :
    truthy (getattr o "urban_zone" PNone) = true →
    ∃ zone, getattr o "urban_zone" PNone = PStr zone;
  wf_surface : returns (py_float float_of_str (getattr o "surface" (PInt 0)))
}.

(** The service count query answers for the commune and the locality that
    [calculate_tib] reads from the property. *)
Definition tib_query_answers
    (services : service_table) (o : gmap string pyval) : Prop :=
  ∀ commune locality,
    o !! "commune_id" = Some commune →
    py_strip (py_or (getattr o "delegation" PNone) (PStr "")) = Returned locality →
    returns (tib_services_count services commune locality).

(** A result is either an error without a tax, or a tax without an error. *)
Definition error_or_tax (d : gmap string pyval) : Prop :=
  (is_Some (d !! "error") ∧ d !! "tax_amount" = None)
  ∨ (d !! "error" = None ∧ is_Some (d !! "tax_amount")).

(** The result of an exempt asset. *)
Definition exempt_result (reason : pyval) (r : outcome (gmap string pyval)) : Prop :=
  ∃ d, r = Returned d
       ∧ d !! "base_amount" = Some (PFloat 0)
       ∧ d !! "rate_percent" = Some (PFloat 0)
       ∧ d !! "tax_amount" = Some (PFloat 0)
       ∧ d !! "total_amount" = Some (PFloat 0)
       ∧ d !! "exemption_reason" = Some reason
       ∧ d !! "error" = None.

(** ** The banded lookup in the words of the specification *)

(** The bands of the service rate: threshold and rate. *)
Definition spec_service_bands : list (nat * float) :=
  [(0%nat, 0.08); (3%nat, 0.10); (5%nat, 0.12); (7%nat, 0.14)]%float.

(** Of the bands whose threshold the count meets or exceeds, the one with
    the highest threshold. *)
Definition highest_band (bands : list (nat * float)) (count : nat)
  : option (nat * float) :=
  fold_right
    (fun band best =>
       if (fst band <=? count)%nat then
         match best with
         | Some b => if (fst b <? fst band)%nat then Some band else best
         | None => Some band
         end
       else best)
    None bands.

Definition spec_service_rate (count : nat) : option float :=
  snd <$> highest_band spec_service_bands count.

(** ** Whole calendar months *)

(** The first instant of the month that lies [k] months after January of
    year [y]. *)
Definition month_start (y k : Z) : datetime :=
  Datetime (y + k / 12) (k mod 12 + 1) 1 0 0 0 0.

(** [k] whole months, and no more, lie between January 1 of [y] and [t]. *)
Definition whole_months_since (y : Z) (t : datetime) (k : Z) : Prop :=
  0 <= k
  ∧ datetime_ltb t (month_start y k) = false
  ∧ datetime_ltb t (month_start y (k + 1)) = true.

(** The calendar fields of a [datetime] that the class admits. *)
Definition valid_datetime (t : datetime) : Prop :=
  1 <= year t <= 9999 ∧ 1 <= month t <= 12 ∧ 1 <= day t <= 31
  ∧ 0 <= hour t < 24 ∧ 0 <= minute t < 60 ∧ 0 <= second t < 60
  ∧ 0 <= microsecond t < 1000000.

(** ** Data of the examples *)

(** The examples contain no number written as a string; they are evaluated
    with a [float] that accepts no string. *)
Definition no_numeric_strings : string → outcome float :=
  fun _ => Raised ValueError.

(** A service table with [n] available commune-wide services in every
    commune and none configured for a locality. *)
Definition commune_wide (n : nat) : service_table :=
  {| count_locality := fun _ _ => Returned 0%nat;
     count_commune_wide := fun _ => Returned n |}.

(** A property as the public estimator builds it. *)
Definition mock_property (surface_couverte reference_price_per_m2 : pyval)
  : gmap string pyval :=
  dict [("surface_couverte", surface_couverte);
        ("reference_price_per_m2", reference_price_per_m2);
        ("commune_id", PInt 1);
        ("delegation", PNone);
        ("is_exempt", PBool false);
        ("exemption_reason", PNone)].

Definition mock_land (surface urban_zone : pyval) : gmap string pyval :=
  dict [("surface", surface);
        ("urban_zone", urban_zone);
        ("is_exempt", PBool false);
        ("exemption_reason", PNone)].

(** ** The other functions of the calculator *)

(** *** _get_surface_multiplier *)

(** An entry of [cfg['TIB']['surface_categories']]; its numbers are taken
    as binary64 values. *)
Record surface_bracket : Type := SurfaceBracket {
  bracket_min : float;
  bracket_max : float;
  bracket_label : string;
  bracket_multiplier : float
}.

(** The embedded default of [_load_config]. *)
Definition default_surface_categories : list surface_bracket :=
  [SurfaceBracket 0 50 "A" 1.00; SurfaceBracket 50 100 "B" 1.25;
   SurfaceBracket 100 200 "C" 1.50; SurfaceBracket 200 9.0e9 "D" 1.75]%float.

(** The multiplier of the first bracket with [min <= surface_m2 < max],
    else that of the last bracket; [None] stands for the [IndexError] of
    [surface_categories[-1]] on an empty list. *)
Definition _get_surface_multiplier
    (surface_categories : list surface_bracket) (surface_m2 : float)
  : option float :=
  match
    find (fun bracket =>
            (bracket_min bracket <=? surface_m2)%float
            && (surface_m2 <? bracket_max bracket)%float)
         surface_categories
  with
  | Some bracket => Some (bracket_multiplier bracket)
  | None => bracket_multiplier <$> last surface_categories
  end.

(** *** _years_since and _match_exemption *)

(** [None] for no year (or year 0), else the years from [year] to the year
    of the clock, never less than 0. *)
Definition _years_since (utcnow : datetime) (construction_year : option Z)
  : option Z :=
  match construction_year with
  | None => None
  | Some y => if y =? 0 then None else Some (Z.max 0 (year utcnow - y))
  end.

(** The conditions of an exemption rule; a key that the rule does not have
    is [None]. The listed values are strings. *)
Record exemption_conditions : Type := ExemptionConditions {
  affectation_in : option (list string);
  land_type_in : option (list string);
  exemption_reason_in : option (list string);
  max_age_years : option Z
}.

(** The calculation context: [None] is a key that is missing or [None]. *)
Record exemption_context : Type := ExemptionContext {
  ctx_affectation : option string;
  ctx_land_type : option string;
  ctx_exemption_reason : option string;
  ctx_construction_year : option Z
}.

(** [(value or '').lower() in [str(x).lower() for x in allowed]]. *)
Definition lower_in (value : option string) (allowed : list string) : bool :=
  let v := str_lower (match value with Some s => s | None => "" end) in
  existsb (String.eqb v) (map str_lower allowed).

(** The body of the loop of [_match_exemption]: the final value of [ok]. *)
Definition rule_matches (utcnow : datetime)
    (cond : exemption_conditions) (context : exemption_context) : bool :=
  let ok := true in
  let ok := match affectation_in cond with
            | Some allowed => ok && lower_in (ctx_affectation context) allowed
            | None => ok
            end in
  let ok := match land_type_in cond with
            | Some allowed => ok && lower_in (ctx_land_type context) allowed
            | None => ok
            end in
  let ok := match exemption_reason_in cond with
            | Some allowed => ok && lower_in (ctx_exemption_reason context) allowed
            | None => ok
            end in
  match max_age_years cond with
  | Some max_age =>
      match _years_since utcnow (ctx_construction_year context) with
      | None => false
      | Some years => if max_age <? years then false else ok
      end
  | None => ok
  end.

(** [_match_exemption] on the rules of one kind, in their declared order. *)
Definition _match_exemption (utcnow : datetime)
    (rules : list exemption_conditions) (context : exemption_context)
  : option exemption_conditions :=
  find (fun cond => rule_matches utcnow cond context) rules.

(** *** calculate_penalty *)

Definition calculate_penalty (cfg : config)
    (tax_amount : float) (penalty_type : string) (days_late : Z)
  : outcome float :=
  if String.eqb penalty_type "late_declaration" then
    _round cfg (tax_amount * 0.10)%float "TIB"
  else if String.eqb penalty_type "late_payment" then
    let months_late := Z.max 0 (days_late / 30) in
    do months <- int_to_float months_late;
    let penalty := (tax_amount * (months * 0.0125))%float in
    _round cfg penalty "TIB"
  else Returned 0%float.

(** ** Callers of the calculator *)

(** *** The refresh of the penalty on reading a tax record *)

Inductive tax_type : Set := TIB | TTNB.

Module Tax.
(** The columns of [models.tax.Tax] that the refresh reads and writes. *)
Record t : Type := Make {
  kind : tax_type;
  tax_year : Z;
  tax_amount : float;
  penalty_amount : option float;
  total_amount : option float
}.
End Tax.

(** [x or 0.0] for a nullable float column. *)
Definition or_zero (x : option float) : float :=
  match x with
  | Some v => if is_zero v then 0%float else v
  | None => 0%float
  end.

(** The body of the loop that the listing and payment endpoints run on
    every tax that is not paid: the refreshed record, and whether it was
    written ([any_updates]). *)
Definition refresh_penalty (cfg : config) (utcnow : datetime) (tax : Tax.t)
  : outcome (Tax.t * bool) :=
  let section := match Tax.kind tax with TIB => "TIB" | TTNB => "TTNB" end in
  do new_penalty <-
    compute_late_payment_penalty_for_year cfg utcnow
      (Tax.tax_amount tax) (Tax.tax_year tax) section None;
  if negb (or_zero (Tax.penalty_amount tax) =? new_penalty)%float
     || negb (or_zero (Tax.total_amount tax)
              =? Tax.tax_amount tax + new_penalty)%float
  then
    Returned
      (Tax.Make (Tax.kind tax) (Tax.tax_year tax) (Tax.tax_amount tax)
         (Some new_penalty) (Some (Tax.tax_amount tax + new_penalty)%float),
       true)
  else Returned (tax, false).

(** *** The payable window *)

Record date : Type := Date { date_year : Z; date_month : Z; date_day : Z }.

Definition date_ltb (a b : date) : bool :=
  lex_ltb [date_year a; date_month a; date_day a]
          [date_year b; date_month b; date_day b].

(** [date.today() >= date(int(tax.tax_year) + 1, 1, 1)]. *)
Definition is_payable (today : date) (tax_year : Z) : outcome bool :=
  let y := tax_year + 1 in
  if negb (fits_c_int y) then Raised OverflowError
  else if (1 <=? y) && (y <=? 9999)
  then Returned (negb (date_ltb today (Date y 1 1)))
  else Raised ValueError.

(** *** The check of the urban zone in the land endpoints *)





(** *** The public estimator *)

(** The body of a response of [estimate_tax]. *)
Inductive estimate_body : Type :=
| BodyError (error : pyval)                      (* {'error': error} *)
| BodyException (e : exn)                        (* {'error': str(e)} *)
| BodyEstimate (estimate : gmap string pyval).   (* {'estimate': ..., 'disclaimer': ...} *)

(** [MockProperty(d)] and [MockLand(d)]; [getattr] on the request body is
    [d.get]. *)
Definition MockProperty (d : gmap string pyval) : gmap string pyval :=
  dict [("surface_couverte", getattr d "surface_couverte" (PInt 100));
        ("reference_price_per_m2",
         py_or (getattr d "reference_price_per_m2" PNone)
               (getattr d "reference_price" PNone));
        ("commune_id", getattr d "commune_id" PNone);
        ("delegation", getattr d "delegation" PNone);
        ("is_exempt", getattr d "is_exempt" (PBool false));
        ("exemption_reason", getattr d "exemption_reason" PNone)].

Definition MockLand (d : gmap string pyval) : gmap string pyval :=
  dict [("surface", getattr d "surface" (PInt 1000));
        ("urban_zone", getattr d "urban_zone" PNone);
        ("is_exempt", getattr d "is_exempt" (PBool false));
        ("exemption_reason", getattr d "exemption_reason" PNone)].

(** [v == s] for a string [s]. *)
Definition py_eq_str (v : pyval) (s : string) : bool :=
  match v with
  | PStr s' => String.eqb s' s
  | _ => false
  end.

(** [estimate_tax] on a request body that is a JSON object: the body and
    the status of the response. *)
Definition estimate_tax
    (float_of_str : string → outcome float) (cfg : config)
    (services : service_table) (data : gmap string pyval)
  : estimate_body * Z :=
  if negb (truthy (getattr data "tax_type" PNone)) then
    (BodyError (PStr "tax_type required (tib or ttnb)"), 400)
  else
    let result :=
      if py_eq_str (getattr data "tax_type" PNone) "tib"
      then calculate_tib float_of_str cfg services (MockProperty data)
      else calculate_ttnb float_of_str cfg (MockLand data) in
    match result with
    | Returned result =>
        match result !! "error" with
        | Some error => (BodyError error, 400)
        | None => (BodyEstimate result, 200)
        end
    | Raised e => (BodyException e, 400)
    end.

(** ** The two shapes of a result *)

(** A result without [error] carries the four amounts as numbers, with
    [total_amount] equal to [tax_amount]. *)
Definition tax_result (d : gmap string pyval) : Prop :=
  ∃ base rate tax,
    d !! "base_amount" = Some (PFloat base)
    ∧ d !! "rate_percent" = Some (PFloat rate)
    ∧ d !! "tax_amount" = Some (PFloat tax)
    ∧ d !! "total_amount" = Some (PFloat tax).

(** A result with [error] carries a message and no amount. *)
Definition error_result (d : gmap string pyval) : Prop :=
  (∃ message, d !! "error" = Some (PStr message))
  ∧ d !! "base_amount" = None
  ∧ d !! "tax_amount" = None
  ∧ d !! "total_amount" = None.

(** * Properties *)

(** ** The runtime model on known values *)

Example py_round_2_675 : py_round 2.675 2 = Returned 2.67%float.
Proof. vm_compute. reflexivity. Qed.
Example py_round_tie : py_round 0.125 2 = Returned 0.12%float.
Proof. vm_compute. reflexivity. Qed.
Example py_round_tie2 : py_round 0.375 2 = Returned 0.38%float.
Proof. vm_compute. reflexivity. Qed.
Example py_round_millime : py_round 0.0016 3 = Returned 0.002%float.
Proof. vm_compute. reflexivity. Qed.
Example py_round_neg : py_round (-16.000000000000004) 3 = Returned (-16)%float.
Proof. vm_compute. reflexivity. Qed.
Example py_round_negdigits : py_round 1234.5 (-2) = Returned 1200%float.
Proof. vm_compute. reflexivity. Qed.
Example py_round_big : py_round 1.7e308 (-308) = Raised OverflowError.
Proof. vm_compute. reflexivity. Qed.
Example py_round_big3 : py_round 1.7976931348623157e308 3 = Returned 1.7976931348623157e308%float.
Proof. vm_compute. reflexivity. Qed.
Example py_round_small : py_round 5e-324 3 = Returned 0%float.
Proof. vm_compute. reflexivity. Qed.
Example py_round_small2 : py_round 1.0005 3 = Returned 1%float.
Proof. vm_compute. reflexivity. Qed.
Example py_round_small3 : py_round 123456789.0123456 6 = Returned 123456789.012346%float.
Proof. vm_compute. reflexivity. Qed.
Example int_to_float_ex : int_to_float (2^53 + 1) = Returned 9007199254740992%float.
Proof. vm_compute. reflexivity. Qed.
Example int_to_float_ex2 : int_to_float (-(2^53 + 3)) = Returned (-9007199254740996)%float.
Proof. vm_compute. reflexivity. Qed.
Example int_to_float_ex3 : int_to_float (2^1024) = Raised OverflowError.
Proof. vm_compute. reflexivity. Qed.
Example int_to_float_ex4 : int_to_float (2^1024 - 2^970 - 1) = Returned 1.7976931348623157e308%float.
Proof. vm_compute. reflexivity. Qed.
Example int_to_float_ex5 : int_to_float (2^1024 - 2^970) = Raised OverflowError.
Proof. vm_compute. reflexivity. Qed.
Example nearest_tenth : Binary64.to_float false (Binary64.nearest 1 10) = 0.1%float.
Proof. vm_compute. reflexivity. Qed.
Example nearest_sub : Binary64.to_float false (Binary64.nearest 1 (10^320)) = 1e-320%float.
Proof. vm_compute. reflexivity. Qed.

(** ** Rounding stays in the finite range *)

Module Binary64Facts.
Import Binary64.

Lemma round_half_even_le (num den bound : Z) :
  0 < den → num <= bound * den → round_half_even num den <= bound.
Proof.
  intros Hden Hle. unfold round_half_even.
  pose proof (Z.div_mod num den ltac:(lia)) as Hdm.
  pose proof (Z.mod_pos_bound num den Hden) as Hr.
  assert (Hq : num / den <= bound) by (apply Z.div_le_upper_bound; lia).
  assert (Hq1 : 0 < num mod den → num / den + 1 <= bound) by nia.
  destruct (2 * (num mod den) ?= den) eqn:Hcmp.
  - destruct (Z.even (num / den)); [lia|]. apply Z.compare_eq in Hcmp. lia.
  - lia.
  - apply Z.compare_gt_iff in Hcmp. lia.
Qed.

Lemma floor_log2_lt (num den b : Z) :
  0 < num → 0 < den → 0 <= b → num < den * 2 ^ b →
  floor_log2 num den < b.
Proof.
  intros Hnum Hden Hb Hlt. unfold floor_log2.
  destruct (Z.log2_spec num Hnum) as [Hn _].
  destruct (Z.log2_spec den Hden) as [_ Hd].
  pose proof (Z.log2_nonneg num) as Hn0.
  pose proof (Z.log2_nonneg den) as Hd0.
  assert (Hex : Z.log2 num - Z.log2 den <= b).
  { assert (H : 2 ^ Z.log2 num < 2 ^ (Z.succ (Z.log2 den) + b)).
    { rewrite Z.pow_add_r by lia.
      assert (0 < 2 ^ b) by (apply Z.pow_pos_nonneg; lia). nia. }
    apply Z.pow_lt_mono_r_iff in H; lia. }
  destruct (scale_num num _ <? scale_den den _) eqn:Hcmp; [lia|].
  apply Z.ltb_ge in Hcmp.
  destruct (Z.eq_dec (Z.log2 num - Z.log2 den) b) as [Heq|]; [|lia].
  rewrite Heq in Hcmp. unfold scale_num, scale_den in Hcmp.
  rewrite (Z.max_l 0 (- b)), (Z.max_r 0 b) in Hcmp by lia.
  rewrite Z.pow_0_r in Hcmp. lia.
Qed.

Lemma nearest_finite (num den : Z) :
  0 < num → 0 < den → num <= max_finite * den →
  overflows (nearest num den) = false.
Proof.
  intros Hnum Hden Hle. unfold nearest, overflows.
  assert (Hmax : max_finite < 2 ^ 1024) by (vm_compute; reflexivity).
  assert (Hfl : floor_log2 num den < 1024).
  { apply floor_log2_lt; [lia..|]. nia. }
  destruct (Z_lt_le_dec (floor_log2 num den) 1023) as [Hlt|Hge].
  - rewrite (proj2 (Z.ltb_ge _ _)) by lia.
    rewrite (proj2 (Z.eqb_neq _ _)) by lia. reflexivity.
  - replace (floor_log2 num den) with 1023 by lia.
    change (Z.max (1023 - 52) (-1074)) with 971.
    rewrite Z.ltb_irrefl, Z.eqb_refl. cbn [orb andb].
    apply Z.leb_gt.
    assert (H : round_half_even (scale_num num 971) (scale_den den 971)
                <= 2 ^ 53 - 1).
    { unfold scale_num, scale_den.
      change (Z.max 0 (- 971)) with 0. change (Z.max 0 971) with 971.
      rewrite Z.pow_0_r, Z.mul_1_r.
      assert (Hp : 0 < 2 ^ 971) by (apply Z.pow_pos_nonneg; lia).
      apply round_half_even_le; [nia|].
      unfold max_finite in Hle. nia. }
    lia.
Qed.

Lemma digits2_pos_bound (m : positive) :
  Z.pos m < 2 ^ Z.pos (digits2_pos m).
Proof.
  induction m as [m IH|m IH|]; cbn [digits2_pos].
  - rewrite Pos2Z.inj_succ, Z.pow_succ_r by lia. lia.
  - rewrite Pos2Z.inj_succ, Z.pow_succ_r by lia. lia.
  - reflexivity.
Qed.

(** The significand and exponent of a finite binary64 number. *)
Lemma finite_bounds (x : float) (s : bool) (m : positive) (e : Z) :
  Prim2SF x = S754_finite s m e → Z.pos m < 2 ^ 53 ∧ e <= 971.
Proof.
  intros Hx. pose proof (Prim2SF_valid x) as Hv. rewrite Hx in Hv.
  cbn [SpecFloat.valid_binary] in Hv. unfold bounded in Hv.
  apply andb_true_iff in Hv as [Hc He].
  apply Z.leb_le in He. unfold canonical_mantissa, fexp in Hc.
  apply Z.eqb_eq in Hc. change (emax - prec) with 971 in He.
  split; [|exact He].
  pose proof (digits2_pos_bound m) as Hd.
  assert (Hle : Z.pos (digits2_pos m) <= 53)
    by (change prec with 53 in Hc; lia).
  eapply Z.lt_le_trans; [exact Hd|].
  apply Z.pow_le_mono_r; lia.
Qed.

End Binary64Facts.

(** [float(n)] succeeds on every [int] within the finite range. *)
Lemma int_to_float_returns (n : Z) :
  Z.abs n <= Binary64.max_finite → returns (int_to_float n).
Proof.
  intros Hn. unfold int_to_float.
  destruct (n =? 0) eqn:H0; [eexists; reflexivity|].
  apply Z.eqb_neq in H0.
  rewrite Binary64Facts.nearest_finite by lia.
  eexists; reflexivity.
Qed.

(** Rounding to a non-negative number of decimals never raises. *)
Lemma py_round_returns (x : float) (ndigits : Z) :
  0 <= ndigits → returns (py_round x ndigits).
Proof.
  intros Hnd. unfold py_round.
  destruct (Prim2SF x) as [| | |s m e] eqn:Hx; try (eexists; reflexivity).
  destruct (Binary64Facts.finite_bounds x s m e Hx) as [Hm He].
  destruct (323 <? ndigits); [eexists; reflexivity|].
  destruct (ndigits <? -308); [eexists; reflexivity|].
  rewrite (Z.max_r 0 ndigits), (Z.max_l 0 (- ndigits)) by lia.
  rewrite Z.pow_0_r, !Z.mul_1_r.
  set (up := 10 ^ ndigits).
  set (n := Binary64.round_half_even _ _).
  assert (Hup : 0 < up) by (apply Z.pow_pos_nonneg; lia).
  destruct (n =? 0) eqn:Hn0; [eexists; reflexivity|].
  apply Z.eqb_neq in Hn0.
  assert (Hden : 0 < Binary64.scale_den 1 (- e)).
  { unfold Binary64.scale_den. rewrite Z.mul_1_l.
    apply Z.pow_pos_nonneg; lia. }
  assert (Hnum : 0 <= Binary64.scale_num (Z.pos m) (- e) * up).
  { unfold Binary64.scale_num.
    assert (0 < 2 ^ Z.max 0 (- - e)) by (apply Z.pow_pos_nonneg; lia). nia. }
  assert (Hpos : 0 <= n).
  { subst n. unfold Binary64.round_half_even.
    pose proof (Z.div_pos _ _ Hnum Hden).
    destruct (_ ?= _); [destruct (Z.even _)|..]; lia. }
  assert (Hle : n <= Binary64.max_finite * up).
  { subst n. apply Binary64Facts.round_half_even_le; [exact Hden|].
    unfold Binary64.scale_num, Binary64.scale_den, Binary64.max_finite.
    rewrite Z.opp_involutive, Z.mul_1_l.
    assert (H1 : 2 ^ Z.max 0 e <= 2 ^ 971) by (apply Z.pow_le_mono_r; lia).
    assert (H2 : 0 < 2 ^ Z.max 0 e) by (apply Z.pow_pos_nonneg; lia).
    assert (H3 : 1 <= 2 ^ Z.max 0 (- e)).
    { change 1 with (2 ^ 0). apply Z.pow_le_mono_r; lia. }
    assert (H4 : Z.pos m * 2 ^ Z.max 0 e <= (2 ^ 53 - 1) * 2 ^ 971) by nia.
    transitivity ((2 ^ 53 - 1) * 2 ^ 971 * up).
    - apply Z.mul_le_mono_nonneg_r; lia.
    - set (top := (2 ^ 53 - 1) * 2 ^ 971 * up).
      assert (0 <= top) by (subst top; apply Z.mul_nonneg_nonneg; lia).
      nia. }
  rewrite Binary64Facts.nearest_finite by lia.
  eexists; reflexivity.
Qed.

(** ** The calculators on the inputs they read *)

Section Equations.

Variable float_of_str : string → outcome float.
Variable cfg : config.

Lemma calculate_tib_exempt services (o : gmap string pyval) :
  truthy (getattr o "is_exempt" (PBool false)) = true →
  calculate_tib float_of_str cfg services o
  = Returned (dict [
      ("base_amount", PFloat 0); ("rate_percent", PFloat 0);
      ("tax_amount", PFloat 0); ("total_amount", PFloat 0);
      ("exemption_reason", getattr o "exemption_reason" PNone)]).
Proof. intros He. unfold calculate_tib. rewrite He. reflexivity. Qed.

Lemma calculate_ttnb_exempt (o : gmap string pyval) :
  truthy (getattr o "is_exempt" (PBool false)) = true →
  calculate_ttnb float_of_str cfg o
  = Returned (dict [
      ("base_amount", PFloat 0); ("rate_percent", PFloat 0);
      ("tax_amount", PFloat 0); ("total_amount", PFloat 0);
      ("exemption_reason", getattr o "exemption_reason" PNone)]).
Proof. intros He. unfold calculate_ttnb. rewrite He. reflexivity. Qed.

Lemma calculate_tib_missing_price services (o : gmap string pyval) v surface :
  truthy (getattr o "is_exempt" (PBool false)) = false →
  o !! "surface_couverte" = Some v →
  py_float float_of_str v = Returned surface →
  truthy (getattr o "reference_price_per_m2" PNone) = false →
  calculate_tib float_of_str cfg services o
  = Returned (dict [
      ("error", PStr (tib_missing_price_message (tib_category surface)))]).
Proof.
  intros He Hv Hs Hp. unfold calculate_tib, attr.
  rewrite He, Hv. cbn [obind]. rewrite Hs. cbn [obind].
  rewrite Hp. reflexivity.
Qed.

Lemma calculate_tib_taxed services (o : gmap string pyval)
    surface price commune locality :
  tib_reads float_of_str o surface price commune locality →
  calculate_tib float_of_str cfg services o
  = let assiette := (0.02 * (price * surface))%float in
    do services_count <- tib_services_count services commune locality;
    let service_rate := tib_service_rate services_count in
    do base_amount <- _round cfg assiette "TIB";
    do tax_amount <- _round cfg (assiette * service_rate)%float "TIB";
    do total_amount <- _round cfg (assiette * service_rate)%float "TIB";
    Returned (dict [
      ("base_amount", PFloat base_amount);
      ("rate_percent", PFloat (service_rate * 100));
      ("tax_amount", PFloat tax_amount);
      ("total_amount", PFloat total_amount);
      ("category", PInt (tib_category surface));
      ("services_count", PInt (Z.of_nat services_count))]).
Proof.
  intros [He (v & Hv & Hs) Hp Hprice Hc Hl]. unfold calculate_tib, attr.
  rewrite He, Hv. cbn [obind]. rewrite Hs. cbn [obind].
  rewrite Hp. cbn [negb]. rewrite Hprice. cbn [obind].
  rewrite Hc. cbn [obind]. rewrite Hl. reflexivity.
Qed.



Lemma zone_tariff_values key tariff :
  dict_get ZONE_TARIFFS key = Some tariff →
  (key = "haute_densite" ∧ tariff = 1.2%float)
  ∨ (key = "densite_moyenne" ∧ tariff = 0.8%float)
  ∨ (key = "faible_densite" ∧ tariff = 0.4%float)
  ∨ (key = "peripherique" ∧ tariff = 0.2%float).
Proof.
  unfold ZONE_TARIFFS. cbn [dict_get].
  repeat match goal with
         | |- context [String.eqb ?k key] =>
             destruct (String.eqb_spec k key) as [<-|_];
             [intros [= <-]; intuition reflexivity|]
         end.
  discriminate.
Qed.

Lemma round_returns amount section :
  0 <= currency_decimals cfg section → returns (_round cfg amount section).
Proof. apply py_round_returns. Qed.

End Equations.

(** * The claims *)

(** ** Exemption short-circuit *)

(** C8. Whenever [is_exempt] is set, both calculators return a result whose
    [base_amount], [rate_percent], [tax_amount] and [total_amount] are all
    exactly 0, that echoes the [exemption_reason] of the input and has no
    [error] key, whatever the other attributes are (a missing reference
    price or urban zone included). *)
Theorem exemption_short_circuit
    (float_of_str : string → outcome float) (cfg : config)
    (services : service_table) (o : gmap string pyval) :
  truthy (getattr o "is_exempt" (PBool false)) = true →
  exempt_result (getattr o "exemption_reason" PNone)
    (calculate_tib float_of_str cfg services o)
  ∧ exempt_result (getattr o "exemption_reason" PNone)
      (calculate_ttnb float_of_str cfg o).
Proof.
  intros He. split.
  - rewrite calculate_tib_exempt by exact He.
    eexists. repeat split; reflexivity.
  - rewrite calculate_ttnb_exempt by exact He.
    eexists. repeat split; reflexivity.
Qed.

Lemma exemption_short_circuit_witness :
  let o : gmap string pyval :=
    dict [("is_exempt", PBool true); ("exemption_reason", PStr "mosque")] in
  truthy (getattr o "is_exempt" (PBool false)) = true
  ∧ exempt_result (PStr "mosque")
      (calculate_tib no_numeric_strings default_config (commune_wide 3) o)
  ∧ exempt_result (PStr "mosque")
      (calculate_ttnb no_numeric_strings default_config o).
Proof.
  split; [reflexivity|].
  apply (exemption_short_circuit no_numeric_strings default_config
           (commune_wide 3)
           (dict [("is_exempt", PBool true); ("exemption_reason", PStr "mosque")])).
  reflexivity.
Defined.

(** ** Missing reference price *)

(** The claim C10 as stated fails where the covered surface is not a
    number: the surface is converted before the price is looked at, so a
    property with a reference price of 0 and no covered surface makes
    [calculate_tib] raise [TypeError] instead of returning the error. *)
Lemma zero_reference_price_without_surface_raises :
  calculate_tib no_numeric_strings default_config (commune_wide 3)
    (mock_property PNone (PInt 0)) = Raised TypeError.
Proof. reflexivity. Qed.

(** C10, amended. Take a property that is not exempt and whose reference
    price is falsy: 0, 0.0, -0.0, [False], [None] or absent, the empty string
    or the empty list. When its [surface_couverte] is present and converted
    by [float], [calculate_tib] returns the missing-reference-price error for
    the category of that surface, and no tax: a price of zero is not a price.
    When [surface_couverte] is absent the call raises [AttributeError], and
    when [float] raises on it the call raises the same exception. *)
Theorem zero_reference_price_is_missing
    (float_of_str : string → outcome float) (cfg : config)
    (services : service_table) (o : gmap string pyval) :
  truthy (getattr o "is_exempt" (PBool false)) = false →
  truthy (getattr o "reference_price_per_m2" PNone) = false →
  (∀ v surface,
     o !! "surface_couverte" = Some v →
     py_float float_of_str v = Returned surface →
     ∃ d, calculate_tib float_of_str cfg services o = Returned d
          ∧ d !! "error"
            = Some (PStr (tib_missing_price_message (tib_category surface)))
          ∧ d !! "tax_amount" = None
          ∧ d !! "total_amount" = None)
  ∧ (∀ v e,
       o !! "surface_couverte" = Some v →
       py_float float_of_str v = Raised e →
       calculate_tib float_of_str cfg services o = Raised e)
  ∧ (o !! "surface_couverte" = None →
     calculate_tib float_of_str cfg services o = Raised AttributeError)
  ∧ (∀ price,
       In price [PInt 0; PFloat 0; PFloat (-0); PBool false; PNone;
                 PStr ""; PList []] →
       truthy price = false).
Proof.
  intros He Hp. split; [|split; [|split]].
  - intros v surface Hv Hs.
    erewrite calculate_tib_missing_price; [|exact He|exact Hv|exact Hs|exact Hp].
    eexists. repeat split; reflexivity.
  - intros v e Hv Hs. unfold calculate_tib, attr.
    rewrite He, Hv. cbn [obind]. rewrite Hs. reflexivity.
  - intros Hv. unfold calculate_tib, attr. rewrite He, Hv. reflexivity.
  - intros price Hin. cbn [In] in Hin.
    destruct Hin as [<-|[<-|[<-|[<-|[<-|[<-|[<-|[]]]]]]]]; reflexivity.
Qed.

Lemma zero_reference_price_is_missing_witness :
  let o := mock_property (PFloat 150) (PInt 0) in
  truthy (getattr o "is_exempt" (PBool false)) = false
  ∧ truthy (getattr o "reference_price_per_m2" PNone) = false
  ∧ ∃ d, calculate_tib no_numeric_strings default_config (commune_wide 3) o
         = Returned d
         ∧ d !! "error"
           = Some (PStr (tib_missing_price_message (tib_category 150)))
         ∧ d !! "tax_amount" = None
         ∧ d !! "total_amount" = None.
Proof.
  intros o.
  assert (He : truthy (getattr o "is_exempt" (PBool false)) = false)
    by reflexivity.
  assert (Hp : truthy (getattr o "reference_price_per_m2" PNone) = false)
    by reflexivity.
  split; [exact He|]. split; [exact Hp|].
  apply (proj1 (zero_reference_price_is_missing no_numeric_strings
                  default_config (commune_wide 3) o He Hp)
           (PFloat 150) 150%float); reflexivity.
Defined.

(** ** Service rate *)

(** The ladder of step 5 selects the band with the highest threshold that
    the count meets or exceeds. *)
Lemma tib_service_rate_highest_band (count : nat) :
  spec_service_rate count = Some (tib_service_rate count).
Proof.
  do 7 (destruct count as [|count]; [reflexivity|]). reflexivity.
Qed.

Lemma tib_service_rate_bands (count : nat) :
  ((count <= 2)%nat ∧ tib_service_rate count = 0.08%float)
  ∨ ((3 <= count <= 4)%nat ∧ tib_service_rate count = 0.10%float)
  ∨ ((5 <= count <= 6)%nat ∧ tib_service_rate count = 0.12%float)
  ∨ ((7 <= count)%nat ∧ tib_service_rate count = 0.14%float).
Proof.
  unfold tib_service_rate.
  destruct (Nat.leb_spec count 2); [left; split; [lia|reflexivity]|].
  destruct (Nat.leb_spec count 4); [right; left; split; [lia|reflexivity]|].
  destruct (Nat.leb_spec count 6);
    [right; right; left; split; [lia|reflexivity]|].
  right; right; right; split; [lia|reflexivity].
Qed.

(** C7. In every TIB calculation of a property that is not exempt, the
    service rate is that of the highest threshold the service count meets or
    exceeds: 8% for a count of at most 2, 10% for 3-4, 12% for 5-6 and 14%
    from 7 on; [rate_percent] is that rate times 100. This holds of every
    result that carries a tax, where the count is the one the query gave for
    the commune and the locality of the property; and the calculation does
    return such a result whenever it reads its inputs, the query answers and
    the rounding precision is not negative. *)
Theorem service_rate_by_highest_threshold
    (float_of_str : string → outcome float) (cfg : config)
    (services : service_table) (o : gmap string pyval) :
  truthy (getattr o "is_exempt" (PBool false)) = false →
  (∀ d,
     calculate_tib float_of_str cfg services o = Returned d →
     d !! "error" = None →
     ∃ commune locality count rate,
       o !! "commune_id" = Some commune
       ∧ py_strip (py_or (getattr o "delegation" PNone) (PStr ""))
         = Returned locality
       ∧ tib_services_count services commune locality = Returned count
       ∧ d !! "services_count" = Some (PInt (Z.of_nat count))
       ∧ d !! "rate_percent" = Some (PFloat (rate * 100))
       ∧ spec_service_rate count = Some rate
       ∧ (((count <= 2)%nat ∧ rate = 0.08%float)
          ∨ ((3 <= count <= 4)%nat ∧ rate = 0.10%float)
          ∨ ((5 <= count <= 6)%nat ∧ rate = 0.12%float)
          ∨ ((7 <= count)%nat ∧ rate = 0.14%float)))
  ∧ (∀ surface price commune locality count,
       tib_reads float_of_str o surface price commune locality →
       tib_services_count services commune locality = Returned count →
       0 <= TIB_currency_decimals cfg →
       ∃ d, calculate_tib float_of_str cfg services o = Returned d
            ∧ d !! "error" = None
            ∧ d !! "services_count" = Some (PInt (Z.of_nat count))
            ∧ d !! "rate_percent"
              = Some (PFloat (tib_service_rate count * 100))).
Proof.
  intros He. split.
  - intros d Hd Herr. unfold calculate_tib, attr in Hd. rewrite He in Hd.
    destruct (o !! "surface_couverte") as [v|]; [|discriminate Hd].
    cbn [obind] in Hd.
    destruct (py_float float_of_str v) as [surface|]; [|discriminate Hd].
    cbn [obind] in Hd.
    destruct (truthy (getattr o "reference_price_per_m2" PNone));
      cbn [negb] in Hd.
    2: { injection Hd as <-. discriminate Herr. }
    destruct (py_float float_of_str _) as [price|]; [|discriminate Hd].
    cbn [obind] in Hd.
    destruct (o !! "commune_id") as [commune|]; [|discriminate Hd].
    cbn [obind] in Hd.
    destruct (py_strip _) as [locality|]; [|discriminate Hd].
    cbn [obind] in Hd.
    destruct (tib_services_count services commune locality) as [count|]
      eqn:Hcount; [|discriminate Hd].
    cbn [obind] in Hd.
    destruct (_round cfg (0.02 * (price * surface)) "TIB") as [base|];
      [|discriminate Hd].
    cbn [obind] in Hd.
    destruct (_round cfg _ "TIB") as [tax|]; [|discriminate Hd].
    cbn [obind] in Hd. injection Hd as <-.
    exists commune, locality, count, (tib_service_rate count).
    split; [reflexivity|]. split; [reflexivity|]. split; [exact Hcount|].
    split; [reflexivity|]. split; [reflexivity|].
    split; [apply tib_service_rate_highest_band|apply tib_service_rate_bands].
  - intros surface price commune locality count Hreads Hcount Hdec.
    rewrite (calculate_tib_taxed _ _ _ _ _ _ _ _ Hreads). cbv zeta.
    rewrite Hcount. cbn [obind].
    destruct (round_returns cfg (0.02 * (price * surface))%float "TIB" Hdec)
      as [base ->].
    destruct (round_returns cfg
                (0.02 * (price * surface) * tib_service_rate count)%float
                "TIB" Hdec) as [tax ->].
    cbn [obind]. eexists.
    split; [reflexivity|]. split; [reflexivity|]. split; reflexivity.
Qed.

Lemma service_rate_by_highest_threshold_witness :
  let o := mock_property (PFloat 150) (PFloat 200) in
  let d : gmap string pyval :=
    dict [("base_amount", PFloat 600);
          ("rate_percent", PFloat 14.000000000000002);
          ("tax_amount", PFloat 84); ("total_amount", PFloat 84);
          ("category", PInt 2); ("services_count", PInt 7)] in
  truthy (getattr o "is_exempt" (PBool false)) = false
  ∧ calculate_tib no_numeric_strings default_config (commune_wide 7) o
    = Returned d
  ∧ d !! "error" = None
  ∧ ∃ commune locality count rate,
      o !! "commune_id" = Some commune
      ∧ py_strip (py_or (getattr o "delegation" PNone) (PStr ""))
        = Returned locality
      ∧ tib_services_count (commune_wide 7) commune locality = Returned count
      ∧ d !! "services_count" = Some (PInt (Z.of_nat count))
      ∧ d !! "rate_percent" = Some (PFloat (rate * 100))
      ∧ spec_service_rate count = Some rate
      ∧ (((count <= 2)%nat ∧ rate = 0.08%float)
         ∨ ((3 <= count <= 4)%nat ∧ rate = 0.10%float)
         ∨ ((5 <= count <= 6)%nat ∧ rate = 0.12%float)
         ∨ ((7 <= count)%nat ∧ rate = 0.14%float)).
Proof.
  intros o d.
  assert (He : truthy (getattr o "is_exempt" (PBool false)) = false)
    by reflexivity.
  assert (Hd : calculate_tib no_numeric_strings default_config
                 (commune_wide 7) o = Returned d) by reflexivity.
  assert (Herr : d !! "error" = None) by reflexivity.
  split; [exact He|]. split; [exact Hd|]. split; [exact Herr|].
  exact (proj1 (service_rate_by_highest_threshold no_numeric_strings
                  default_config (commune_wide 7) o He) d Hd Herr).
Defined.

(** The rates in percent: three are whole numbers, the product for 14% is
    the next binary64 number above 14. *)
Lemma rate_percent_values :
  (0.08 * 100 = 8 ∧ 0.10 * 100 = 10 ∧ 0.12 * 100 = 12
   ∧ 0.14 * 100 = 14.000000000000002)%float.
Proof. repeat split; reflexivity. Qed.

(** [_get_service_rate], which [calculate_tib] does not call, reads the
    bands of the tariff table; with the embedded defaults it gives 12% to a
    count of 3, where the ladder of [calculate_tib] gives 10%. *)
Lemma get_service_rate_default_bands :
  _get_service_rate default_config 3 = 0.12%float
  ∧ tib_service_rate 3 = 0.10%float.
Proof. split; reflexivity. Qed.

(** ** TIB amounts *)

(** Two different binary64 numbers have different exact values. *)
Ltac float_neq :=
  let H := fresh in
  intros H; apply (f_equal Prim2SF) in H; vm_compute in H; discriminate H.

(** The claim C1 as stated fails where rounding to millimes matters: at a
    surface of 1 m2, a reference price of 1 and no service, [base_amount] is
    0.02 and the rate 8%, but [tax_amount] is 0.002, not their product
    0.0016. *)
Lemma tib_tax_is_not_base_times_rate :
  calculate_tib no_numeric_strings default_config (commune_wide 0)
    (mock_property (PFloat 1) (PFloat 1))
  = Returned (dict [
      ("base_amount", PFloat 0.02); ("rate_percent", PFloat 8);
      ("tax_amount", PFloat 0.002); ("total_amount", PFloat 0.002);
      ("category", PInt 1); ("services_count", PInt 0)])
  ∧ (0.02 * 0.08)%float ≠ 0.002%float.
Proof. split; [reflexivity|float_neq]. Qed.

(** C1, amended. Take a property that is not exempt, whose
    [surface_couverte] is present and converted by [float] to [surface],
    whose reference price is truthy and converted by [float] to [price],
    whose [commune_id] is present, whose [delegation or ''] is a string, and
    for which the service count query answers [count]; let the TIB rounding
    precision be non-negative. Then [calculate_tib] returns [base_amount] =
    0.02 x (price x surface) rounded by the TIB rounding policy, and
    [tax_amount] = [total_amount] = that base, unrounded, times the service
    rate of [count], rounded once by the same policy: the rate replaces the
    base, it is not added to it. At a surface of 150, a price of 200 and 3
    services: base 600.000, rate 10%, tax and total 60.000. *)
Theorem tib_amounts
    (float_of_str : string → outcome float) (cfg : config)
    (services : service_table) (o : gmap string pyval)
    (surface price : float) (commune : pyval) (locality : string)
    (count : nat) :
  tib_reads float_of_str o surface price commune locality →
  tib_services_count services commune locality = Returned count →
  0 <= TIB_currency_decimals cfg →
  let assiette := (0.02 * (price * surface))%float in
  let rate := tib_service_rate count in
  (∃ base tax d,
     _round cfg assiette "TIB" = Returned base
     ∧ _round cfg (assiette * rate)%float "TIB" = Returned tax
     ∧ calculate_tib float_of_str cfg services o = Returned d
     ∧ d !! "base_amount" = Some (PFloat base)
     ∧ d !! "rate_percent" = Some (PFloat (rate * 100))
     ∧ d !! "tax_amount" = Some (PFloat tax)
     ∧ d !! "total_amount" = Some (PFloat tax)
     ∧ d !! "error" = None)
  ∧ calculate_tib no_numeric_strings default_config (commune_wide 3)
      (mock_property (PFloat 150) (PFloat 200))
    = Returned (dict [
        ("base_amount", PFloat 600); ("rate_percent", PFloat 10);
        ("tax_amount", PFloat 60); ("total_amount", PFloat 60);
        ("category", PInt 2); ("services_count", PInt 3)]).
Proof.
  intros Hreads Hcount Hdec assiette rate. split; [|reflexivity].
  rewrite (calculate_tib_taxed _ _ _ _ _ _ _ _ Hreads). cbv zeta.
  rewrite Hcount. cbn [obind].
  fold assiette. fold rate.
  destruct (round_returns cfg assiette "TIB" Hdec) as [base Hbase].
  destruct (round_returns cfg (assiette * rate)%float "TIB" Hdec) as [tax Htax].
  exists base, tax. rewrite Hbase, Htax. cbn [obind].
  eexists. repeat split; reflexivity.
Qed.

Lemma tib_amounts_witness :
  (∃ base tax d,
     _round default_config (0.02 * (200 * 150))%float "TIB" = Returned base
     ∧ _round default_config
         (0.02 * (200 * 150) * tib_service_rate 3)%float "TIB" = Returned tax
     ∧ calculate_tib no_numeric_strings default_config (commune_wide 3)
         (mock_property (PFloat 150) (PFloat 200)) = Returned d
     ∧ d !! "base_amount" = Some (PFloat base)
     ∧ d !! "rate_percent" = Some (PFloat (tib_service_rate 3 * 100))
     ∧ d !! "tax_amount" = Some (PFloat tax)
     ∧ d !! "total_amount" = Some (PFloat tax)
     ∧ d !! "error" = None)
  ∧ calculate_tib no_numeric_strings default_config (commune_wide 3)
      (mock_property (PFloat 150) (PFloat 200))
    = Returned (dict [
        ("base_amount", PFloat 600); ("rate_percent", PFloat 10);
        ("tax_amount", PFloat 60); ("total_amount", PFloat 60);
        ("category", PInt 2); ("services_count", PInt 3)]).
Proof.
  apply (tib_amounts no_numeric_strings default_config (commune_wide 3)
           (mock_property (PFloat 150) (PFloat 200))
           150%float 200%float (PInt 1) "" 3%nat).
  - split; try reflexivity. exists (PFloat 150). split; reflexivity.
  - reflexivity.
  - vm_compute. discriminate.
Defined.

(** ** TTNB amounts *)



(** [calculate_ttnb] reads four attributes of the land and nothing else. *)
Lemma calculate_ttnb_reads_only
    (float_of_str : string → outcome float) (cfg : config)
    (o o' : gmap string pyval) :
  (∀ name, In name ["is_exempt"; "exemption_reason"; "urban_zone"; "surface"] →
           o' !! name = o !! name) →
  calculate_ttnb float_of_str cfg o' = calculate_ttnb float_of_str cfg o.
Proof.
  intros Hsame. unfold calculate_ttnb, getattr.
  rewrite !Hsame by (cbn; tauto). reflexivity.
Qed.



(** ** Urban zone *)

(** The claim C9 as stated fails on a zone that is not one of the four keys
    but becomes one in lower case: "HAUTE_DENSITE" is taxed at the
    high-density tariff. *)
Lemma ttnb_upper_case_zone_is_taxed :
  ¬ In "HAUTE_DENSITE" valid_zones
  ∧ calculate_ttnb no_numeric_strings default_config
      (mock_land (PFloat 100) (PStr "HAUTE_DENSITE"))
    = Returned (dict [
        ("base_amount", PFloat 120); ("rate_percent", PFloat 0);
        ("tax_amount", PFloat 120); ("total_amount", PFloat 120);
        ("zone", PStr "HAUTE_DENSITE"); ("tariff_per_m2", PFloat 1.2);
        ("surface_m2", PFloat 100)]).
Proof.
  split; [|reflexivity].
  cbn. intros [H|[H|[H|[H|[]]]]]; discriminate H.
Qed.

(** C9, amended. For a land that is not exempt, whose urban zone is missing,
    [None] or otherwise empty, or is a string whose lower-case form is not
    one of the four keys, [calculate_ttnb] returns a result with an [error]
    key that lists the four valid zones and has no [tax_amount]: no tariff is
    assumed. *)
Theorem ttnb_invalid_zone
    (float_of_str : string → outcome float) (cfg : config)
    (o : gmap string pyval) :
  truthy (getattr o "is_exempt" (PBool false)) = false →
  (truthy (getattr o "urban_zone" PNone) = false
   ∨ ∃ zone, getattr o "urban_zone" PNone = PStr zone
             ∧ ¬ In (str_lower zone) valid_zones) →
  ∃ d message,
    calculate_ttnb float_of_str cfg o = Returned d
    ∧ d !! "error" = Some (PStr message)
    ∧ d !! "valid_zones"
      = Some (PList [PStr "haute_densite"; PStr "densite_moyenne";
                     PStr "faible_densite"; PStr "peripherique"])
    ∧ d !! "tax_amount" = None
    ∧ d !! "total_amount" = None.
Proof.
  intros He [Hz|(zone & Hz & Hin)]; unfold calculate_ttnb; rewrite He.
  - rewrite Hz. cbn [negb]. do 2 eexists. repeat split; reflexivity.
  - rewrite Hz.
    destruct (truthy (PStr zone)); cbn [negb].
    + destruct (dict_get ZONE_TARIFFS (str_lower zone)) as [tariff|] eqn:Ht.
      * exfalso. apply Hin.
        destruct (zone_tariff_values _ _ Ht) as [[-> _]|[[-> _]|[[-> _]|[-> _]]]];
          cbn; tauto.
      * do 2 eexists. repeat split; reflexivity.
    + do 2 eexists. repeat split; reflexivity.
Qed.

Lemma ttnb_invalid_zone_witness :
  ∃ d message,
    calculate_ttnb no_numeric_strings default_config
      (mock_land (PFloat 5000) (PStr "unknown_zone")) = Returned d
    ∧ d !! "error" = Some (PStr message)
    ∧ d !! "valid_zones"
      = Some (PList [PStr "haute_densite"; PStr "densite_moyenne";
                     PStr "faible_densite"; PStr "peripherique"])
    ∧ d !! "tax_amount" = None
    ∧ d !! "total_amount" = None.
Proof.
  apply (ttnb_invalid_zone no_numeric_strings default_config
           (mock_land (PFloat 5000) (PStr "unknown_zone"))).
  - reflexivity.
  - right. exists "unknown_zone". split; [reflexivity|].
    vm_compute. intros [H|[H|[H|[H|[]]]]]; discriminate H.
Defined.

(** ** Surface *)

(** C5: [calculate_tib] does not reject a surface that is not positive. A
    property with a covered surface of -50 m2 and a reference price of 200
    is taxed: base -200, tax -16, no [error]; [calculate_ttnb] rejects the
    same surface. *)
Theorem tib_negative_surface_is_taxed :
  calculate_tib no_numeric_strings default_config (commune_wide 0)
    (mock_property (PFloat (-50)) (PFloat 200))
  = Returned (dict [
      ("base_amount", PFloat (-200)); ("rate_percent", PFloat 8);
      ("tax_amount", PFloat (-16)); ("total_amount", PFloat (-16));
      ("category", PInt 1); ("services_count", PInt 0)])
  ∧ calculate_tib no_numeric_strings default_config (commune_wide 0)
      (mock_property (PFloat 0) (PFloat 200))
    = Returned (dict [
        ("base_amount", PFloat 0); ("rate_percent", PFloat 8);
        ("tax_amount", PFloat 0); ("total_amount", PFloat 0);
        ("category", PInt 1); ("services_count", PInt 0)])
  ∧ calculate_ttnb no_numeric_strings default_config
      (mock_land (PFloat (-50)) (PStr "faible_densite"))
    = Returned (dict [("error", PStr "Land surface must be greater than 0")]).
Proof. repeat split; reflexivity. Qed.

(** On a land that is not exempt, [calculate_ttnb] never taxes a surface
    that is [<= 0]. *)
Lemma ttnb_rejects_non_positive_surface
    (float_of_str : string → outcome float) (cfg : config)
    (o : gmap string pyval) (surface : float) :
  truthy (getattr o "is_exempt" (PBool false)) = false →
  py_float float_of_str (getattr o "surface" (PInt 0)) = Returned surface →
  (surface <=? 0)%float = true →
  ∀ d, calculate_ttnb float_of_str cfg o = Returned d →
       is_Some (d !! "error") ∧ d !! "tax_amount" = None.
Proof.
  intros He Hs Hle d. unfold calculate_ttnb. rewrite He.
  destruct (truthy (getattr o "urban_zone" PNone)); cbn [negb].
  - destruct (getattr o "urban_zone" PNone); try discriminate.
    destruct (dict_get ZONE_TARIFFS (str_lower s)) as [tariff|].
    + destruct (is_zero tariff).
      * intros [= <-]. split; [eexists|]; reflexivity.
      * rewrite Hs. cbn [obind]. rewrite Hle.
        intros [= <-]. split; [eexists|]; reflexivity.
    + intros [= <-]. split; [eexists|]; reflexivity.
  - intros [= <-]. split; [eexists|]; reflexivity.
Qed.

(** ** Results and exceptions *)

(** The claim C4 as stated fails on inputs that are not well formed: a
    covered surface of [None] makes [calculate_tib] raise [TypeError], and
    an urban zone that is a number makes [calculate_ttnb] raise
    [AttributeError]. *)
Lemma calculators_raise_on_ill_formed_input :
  calculate_tib no_numeric_strings default_config (commune_wide 3)
    (mock_property PNone (PFloat 200)) = Raised TypeError
  ∧ calculate_ttnb no_numeric_strings default_config
      (mock_land (PFloat 5000) (PInt 5)) = Raised AttributeError.
Proof. split; reflexivity. Qed.

(** C4, amended. Take a property whose [surface_couverte] is present and
    converted by [float], whose reference price is converted by [float] when
    it is truthy, whose [commune_id] is present, whose [delegation or ''] is
    a string and for which the service count query answers; a land whose
    urban zone is a string when it is truthy and whose [surface] (0 when
    absent) is converted by [float]; and TIB and TTNB rounding precisions
    that are not negative. Then [calculate_tib] and [calculate_ttnb] return a
    dictionary and raise nothing; the dictionary either carries an [error]
    key and no tax, or a tax and no [error] key. *)
Theorem calculators_return_a_result
    (float_of_str : string → outcome float) (cfg : config)
    (services : service_table) (p l : gmap string pyval) :
  tib_well_formed float_of_str p →
  tib_query_answers services p →
  ttnb_well_formed float_of_str l →
  0 <= TIB_currency_decimals cfg →
  0 <= TTNB_currency_decimals cfg →
  (∃ d, calculate_tib float_of_str cfg services p = Returned d ∧ error_or_tax d)
  ∧ (∃ d, calculate_ttnb float_of_str cfg l = Returned d ∧ error_or_tax d).
Proof.
  intros [(v & Hv & surface & Hs) Hprice (commune & Hc) (locality & Hl)]
         Hquery [Hzone (lsurface & Hls)] Htib Httnb.
  split.
  - destruct (truthy (getattr p "is_exempt" (PBool false))) eqn:He.
    { rewrite calculate_tib_exempt by exact He.
      eexists. split; [reflexivity|]. right. split; [|eexists]; reflexivity. }
    destruct (truthy (getattr p "reference_price_per_m2" PNone)) eqn:Hp.
    + destruct (Hprice eq_refl) as [price Hpr].
      rewrite (calculate_tib_taxed float_of_str cfg services p
                 surface price commune locality)
        by (split; eauto).
      cbv zeta.
      destruct (Hquery commune locality Hc Hl) as [count ->]. cbn [obind].
      destruct (round_returns cfg (0.02 * (price * surface))%float "TIB" Htib)
        as [base ->].
      destruct (round_returns cfg
                  (0.02 * (price * surface) * tib_service_rate count)%float
                  "TIB" Htib) as [tax ->].
      cbn [obind]. eexists. split; [reflexivity|].
      right. split; [|eexists]; reflexivity.
    + rewrite (calculate_tib_missing_price float_of_str cfg services p v surface)
        by assumption.
      eexists. split; [reflexivity|]. left. split; [eexists|]; reflexivity.
  - destruct (truthy (getattr l "is_exempt" (PBool false))) eqn:He.
    { rewrite calculate_ttnb_exempt by exact He.
      eexists. split; [reflexivity|]. right. split; [|eexists]; reflexivity. }
    unfold calculate_ttnb. rewrite He.
    destruct (truthy (getattr l "urban_zone" PNone)) eqn:Hz; cbn [negb].
    + destruct (Hzone eq_refl) as [zone ->].
      destruct (dict_get ZONE_TARIFFS (str_lower zone)) as [tariff|].
      * destruct (is_zero tariff).
        { eexists. split; [reflexivity|]. left. split; [eexists|]; reflexivity. }
        rewrite Hls. cbn [obind].
        destruct (lsurface <=? 0)%float.
        { eexists. split; [reflexivity|]. left. split; [eexists|]; reflexivity. }
        destruct (round_returns cfg (lsurface * tariff)%float "TTNB" Httnb)
          as [tax ->].
        cbn [obind]. eexists. split; [reflexivity|].
        right. split; [|eexists]; reflexivity.
      * eexists. split; [reflexivity|]. left. split; [eexists|]; reflexivity.
    + eexists. split; [reflexivity|]. left. split; [eexists|]; reflexivity.
Qed.

Lemma calculators_return_a_result_witness :
  (∃ d, calculate_tib no_numeric_strings default_config (commune_wide 3)
          (mock_property (PFloat 150) (PFloat 200)) = Returned d
        ∧ error_or_tax d)
  ∧ (∃ d, calculate_ttnb no_numeric_strings default_config
            (mock_land (PFloat 5000) (PStr "unknown_zone")) = Returned d
          ∧ error_or_tax d).
Proof.
  apply (calculators_return_a_result no_numeric_strings default_config
           (commune_wide 3)
           (mock_property (PFloat 150) (PFloat 200))
           (mock_land (PFloat 5000) (PStr "unknown_zone"))).
  - split.
    + exists (PFloat 150). split; [reflexivity|]. eexists; reflexivity.
    + intros _. eexists; reflexivity.
    + eexists; reflexivity.
    + eexists; reflexivity.
  - intros commune locality _ _. unfold tib_services_count, commune_wide.
    cbn. destruct (negb _); eexists; reflexivity.
  - split.
    + intros _. eexists; reflexivity.
    + eexists; reflexivity.
  - vm_compute. discriminate.
  - vm_compute. discriminate.
Defined.

(** ** Dependence on the service table *)

(** The claim C3 as stated fails for [calculate_tib]: it counts the services
    itself in the service table, so one and the same property snapshot is
    taxed 48 with a table of two services and 60 with a table of three. *)
Lemma tib_result_depends_on_service_table :
  calculate_tib no_numeric_strings default_config (commune_wide 2)
    (mock_property (PFloat 150) (PFloat 200))
  = Returned (dict [
      ("base_amount", PFloat 600); ("rate_percent", PFloat 8);
      ("tax_amount", PFloat 48); ("total_amount", PFloat 48);
      ("category", PInt 2); ("services_count", PInt 2)])
  ∧ calculate_tib no_numeric_strings default_config (commune_wide 3)
      (mock_property (PFloat 150) (PFloat 200))
    = Returned (dict [
        ("base_amount", PFloat 600); ("rate_percent", PFloat 10);
        ("tax_amount", PFloat 60); ("total_amount", PFloat 60);
        ("category", PInt 2); ("services_count", PInt 3)])
  ∧ calculate_tib no_numeric_strings default_config (commune_wide 2)
      (mock_property (PFloat 150) (PFloat 200))
    ≠ calculate_tib no_numeric_strings default_config (commune_wide 3)
        (mock_property (PFloat 150) (PFloat 200)).
Proof.
  assert (H2 : calculate_tib no_numeric_strings default_config (commune_wide 2)
                 (mock_property (PFloat 150) (PFloat 200))
               = Returned (dict [
                   ("base_amount", PFloat 600); ("rate_percent", PFloat 8);
                   ("tax_amount", PFloat 48); ("total_amount", PFloat 48);
                   ("category", PInt 2); ("services_count", PInt 2)]))
    by reflexivity.
  assert (H3 : calculate_tib no_numeric_strings default_config (commune_wide 3)
                 (mock_property (PFloat 150) (PFloat 200))
               = Returned (dict [
                   ("base_amount", PFloat 600); ("rate_percent", PFloat 10);
                   ("tax_amount", PFloat 60); ("total_amount", PFloat 60);
                   ("category", PInt 2); ("services_count", PInt 3)]))
    by reflexivity.
  split; [exact H2|]. split; [exact H3|].
  rewrite H2, H3. intros H.
  apply (f_equal (fun r : outcome (gmap string pyval) =>
                    match r with
                    | Returned d => d !! "services_count"
                    | Raised _ => None
                    end)) in H.
  change (Some (PInt 2) = Some (PInt 3)) in H. discriminate H.
Qed.

(** [calculate_tib] reads the service table only through the count of the
    services of the commune and locality of the property. *)
Lemma calculate_tib_reads_counts
    (float_of_str : string → outcome float) (cfg : config)
    (services services' : service_table) (o : gmap string pyval) :
  (∀ commune locality,
     o !! "commune_id" = Some commune →
     py_strip (py_or (getattr o "delegation" PNone) (PStr "")) = Returned locality →
     tib_services_count services' commune locality
     = tib_services_count services commune locality) →
  calculate_tib float_of_str cfg services' o
  = calculate_tib float_of_str cfg services o.
Proof.
  intros Hsame. unfold calculate_tib, attr.
  destruct (truthy (getattr o "is_exempt" (PBool false))); [reflexivity|].
  destruct (o !! "surface_couverte") as [v|]; [|reflexivity]. cbn [obind].
  destruct (py_float float_of_str v) as [surface|]; [|reflexivity]. cbn [obind].
  destruct (truthy (getattr o "reference_price_per_m2" PNone)); [|reflexivity].
  cbn [negb].
  destruct (py_float float_of_str _) as [price|]; [|reflexivity]. cbn [obind].
  destruct (o !! "commune_id") as [commune|]; [|reflexivity]. cbn [obind].
  destruct (py_strip _) as [locality|]; [|reflexivity]. cbn [obind].
  rewrite (Hsame commune locality) by reflexivity. reflexivity.
Qed.

(** C3, amended. [calculate_ttnb] is a function of the configuration table
    and of four attributes of the land, and the penalty for a given as-of
    date does not depend on the clock. [calculate_tib] is a function of the
    configuration table, of the property snapshot and of the service count
    that it reads itself from the service table for the commune and
    locality of the property: two calls with the same snapshot return the
    same result whenever the table gives the same count. *)
Theorem calculators_depend_on_their_inputs_only
    (float_of_str : string → outcome float) (cfg : config)
    (services services' : service_table) (p l l' : gmap string pyval)
    (utcnow utcnow' today : datetime)
    (tax_amount : float) (tax_year : Z) (section : string) :
  (∀ commune locality,
     p !! "commune_id" = Some commune →
     py_strip (py_or (getattr p "delegation" PNone) (PStr "")) = Returned locality →
     tib_services_count services' commune locality
     = tib_services_count services commune locality) →
  (∀ name, In name ["is_exempt"; "exemption_reason"; "urban_zone"; "surface"] →
           l' !! name = l !! name) →
  calculate_tib float_of_str cfg services' p
  = calculate_tib float_of_str cfg services p
  ∧ calculate_ttnb float_of_str cfg l' = calculate_ttnb float_of_str cfg l
  ∧ compute_late_payment_penalty_for_year cfg utcnow'
      tax_amount tax_year section (Some today)
    = compute_late_payment_penalty_for_year cfg utcnow
        tax_amount tax_year section (Some today).
Proof.
  intros Hcount Hland. split; [|split].
  - apply calculate_tib_reads_counts, Hcount.
  - apply calculate_ttnb_reads_only, Hland.
  - reflexivity.
Qed.

(** A table that also has services configured for localities counts the
    same three commune-wide services for a property without a delegation. *)
Lemma calculators_depend_on_their_inputs_only_witness :
  calculate_tib no_numeric_strings default_config
    {| count_locality := fun _ _ => Returned 5%nat;
       count_commune_wide := fun _ => Returned 3%nat |}
    (mock_property (PFloat 150) (PFloat 200))
  = calculate_tib no_numeric_strings default_config (commune_wide 3)
      (mock_property (PFloat 150) (PFloat 200))
  ∧ calculate_ttnb no_numeric_strings default_config
      (<["commune_id" := PInt 7]> (mock_land (PFloat 5000) (PStr "faible_densite")))
    = calculate_ttnb no_numeric_strings default_config
        (mock_land (PFloat 5000) (PStr "faible_densite"))
  ∧ compute_late_payment_penalty_for_year default_config
      (Datetime 2026 11 3 0 0 0 0) 100 2023 "TIB"
      (Some (Datetime 2025 6 15 0 0 0 0))
    = compute_late_payment_penalty_for_year default_config
        (Datetime 2025 1 1 0 0 0 0) 100 2023 "TIB"
        (Some (Datetime 2025 6 15 0 0 0 0)).
Proof.
  apply (calculators_depend_on_their_inputs_only no_numeric_strings
           default_config (commune_wide 3)
           {| count_locality := fun _ _ => Returned 5%nat;
              count_commune_wide := fun _ => Returned 3%nat |}
           (mock_property (PFloat 150) (PFloat 200))
           (mock_land (PFloat 5000) (PStr "faible_densite"))
           (<["commune_id" := PInt 7]>
              (mock_land (PFloat 5000) (PStr "faible_densite")))
           (Datetime 2025 1 1 0 0 0 0) (Datetime 2026 11 3 0 0 0 0)
           (Datetime 2025 6 15 0 0 0 0) 100%float 2023 "TIB").
  - intros commune locality _ Hl. vm_compute in Hl.
    injection Hl as <-. reflexivity.
  - intros name Hin. cbn in Hin.
    destruct Hin as [<-|[<-|[<-|[<-|[]]]]]; reflexivity.
Defined.

(** ** Late-payment penalty *)

(** A year of the calendar fits a C int. *)
Lemma fits_c_int_year (y : Z) : 1 <= y <= 9999 → fits_c_int y = true.
Proof.
  intros Hy. unfold fits_c_int.
  rewrite (proj2 (Z.leb_le (- 2 ^ 31) y)), (proj2 (Z.ltb_lt y (2 ^ 31))) by lia.
  reflexivity.
Qed.

Lemma datetime_jan_1_in_range (y : Z) :
  1 <= y <= 9999 → datetime_jan_1 y = Returned (Datetime y 1 1 0 0 0 0).
Proof.
  intros Hy. unfold datetime_jan_1. rewrite fits_c_int_year by exact Hy.
  rewrite (proj2 (Z.leb_le 1 y)), (proj2 (Z.leb_le y 9999)) by lia.
  reflexivity.
Qed.

Ltac ltb_false :=
  repeat match goal with
         | |- context [?a <? ?b] => rewrite (proj2 (Z.ltb_ge a b)) by lia
         end.

Lemma datetime_ltb_earlier_year (a b : datetime) :
  year a < year b → datetime_ltb a b = true.
Proof.
  intros H. unfold datetime_ltb, datetime_fields. cbn [lex_ltb].
  rewrite (proj2 (Z.ltb_lt _ _) H). reflexivity.
Qed.

Lemma datetime_ltb_earlier_month (a b : datetime) :
  year a = year b → month a < month b → datetime_ltb a b = true.
Proof.
  intros Hy Hm. unfold datetime_ltb, datetime_fields. cbn [lex_ltb].
  rewrite Hy, Z.eqb_refl, (proj2 (Z.ltb_lt _ _) Hm).
  cbn [andb]. apply orb_true_r.
Qed.

(** No valid instant of a month precedes the first instant of that month. *)
Lemma datetime_ltb_month_start (t : datetime) (y m : Z) :
  valid_datetime t → year t = y → month t = m →
  datetime_ltb t (Datetime y m 1 0 0 0 0) = false.
Proof.
  intros (_ & _ & Hd & Hh & Hmi & Hs & Hus) <- <-.
  unfold datetime_ltb, datetime_fields. cbn [lex_ltb year month day hour
    minute second microsecond].
  ltb_false. cbn [orb]. rewrite !andb_false_r. reflexivity.
Qed.

(** The months that the code counts are the whole months since January 1
    of the starting year. *)
Lemma months_elapsed_whole (y : Z) (t : datetime) :
  valid_datetime t →
  datetime_ltb t (Datetime y 1 1 0 0 0 0) = false →
  whole_months_since y t
    (Z.max 0 ((year t - y) * 12 + (month t - 1))).
Proof.
  intros Hv Hge.
  assert (Hy : y <= year t).
  { destruct (Z_lt_le_dec (year t) y) as [Hlt|]; [|assumption].
    rewrite (datetime_ltb_earlier_year t (Datetime y 1 1 0 0 0 0) Hlt) in Hge.
    discriminate Hge. }
  pose proof Hv as (_ & Hm & _).
  set (k := (year t - y) * 12 + (month t - 1)).
  assert (Hk : 0 <= k) by (subst k; lia).
  rewrite (Z.max_r 0 k) by exact Hk.
  assert (Hdiv : k / 12 = year t - y)
    by (subst k; symmetry; apply (Z.div_unique _ 12 _ (month t - 1)); lia).
  assert (Hmod : k mod 12 = month t - 1)
    by (subst k; symmetry; apply (Z.mod_unique _ 12 (year t - y)); lia).
  split; [exact Hk|]. split.
  - unfold month_start. rewrite Hdiv, Hmod.
    apply datetime_ltb_month_start; [exact Hv|lia..].
  - unfold month_start.
    destruct (Z.eq_dec (month t) 12) as [H12|Hne].
    + assert (Hdiv' : (k + 1) / 12 = year t - y + 1)
        by (subst k; symmetry; apply (Z.div_unique _ 12 _ 0); lia).
      rewrite Hdiv'. apply datetime_ltb_earlier_year. cbn [year]. lia.
    + assert (Hdiv' : (k + 1) / 12 = year t - y)
        by (subst k; symmetry; apply (Z.div_unique _ 12 _ (month t)); lia).
      assert (Hmod' : (k + 1) mod 12 = month t)
        by (subst k; symmetry; apply (Z.mod_unique _ 12 (year t - y)); lia).
      rewrite Hdiv', Hmod'.
      apply datetime_ltb_earlier_month; cbn [year month]; lia.
Qed.

(** The claim C2 as stated fails where rounding to millimes matters: a
    principal of 0.010 of tax year 2023 has accrued one whole month on
    2025-02-01, but the penalty returned is 0, not 0.01 x 0.0125 x 1. *)
Lemma penalty_is_rounded :
  compute_late_payment_penalty_for_year default_config
    (Datetime 2026 11 3 0 0 0 0) 0.01 2023 "TIB"
    (Some (Datetime 2025 2 1 0 0 0 0))
  = Returned 0%float
  ∧ whole_months_since 2025 (Datetime 2025 2 1 0 0 0 0) 1
  ∧ (0.01 * 0.0125 * 1)%float ≠ 0%float.
Proof.
  split; [reflexivity|]. split; [|float_neq].
  split; [lia|]. split; reflexivity.
Qed.

(** C2, amended. For a tax year N other than 0 whose year N+2 is a year of
    the calendar, and an as-of date, [compute_late_payment_penalty_for_year]
    returns 0 when the as-of date precedes January 1 of N+2; otherwise it
    returns principal x 0.0125 x months_elapsed rounded by the rounding
    policy of the section, where months_elapsed is the number of whole
    calendar months from January 1 of N+2 to the as-of date (a partial month
    counts for nothing). A principal of 100 of tax year 2023 has a penalty
    of 6.250 on 2025-06-15; tax year 2024 has none on 2025-06-01. *)
Theorem penalty_accrual
    (cfg : config) (utcnow : datetime)
    (principal : float) (N : Z) (section : string) (as_of : datetime) :
  N ≠ 0 →
  1 <= N + 2 <= 9999 →
  valid_datetime as_of →
  0 <= currency_decimals cfg section →
  (datetime_ltb as_of (Datetime (N + 2) 1 1 0 0 0 0) = true →
   compute_late_payment_penalty_for_year cfg utcnow principal N section
     (Some as_of) = Returned 0%float)
  ∧ (datetime_ltb as_of (Datetime (N + 2) 1 1 0 0 0 0) = false →
     ∃ months_elapsed months penalty,
       whole_months_since (N + 2) as_of months_elapsed
       ∧ int_to_float months_elapsed = Returned months
       ∧ _round cfg (principal * 0.0125 * months)%float section
         = Returned penalty
       ∧ compute_late_payment_penalty_for_year cfg utcnow principal N
           section (Some as_of) = Returned penalty)
  ∧ compute_late_payment_penalty_for_year default_config utcnow 100 2023
      "TIB" (Some (Datetime 2025 6 15 0 0 0 0)) = Returned 6.25%float
  ∧ compute_late_payment_penalty_for_year default_config utcnow 100 2024
      "TIB" (Some (Datetime 2025 6 1 0 0 0 0)) = Returned 0%float.
Proof.
  intros HN Hrange Hv Hdec.
  assert (Hstart : datetime_jan_1 (N + 2) = Returned (Datetime (N + 2) 1 1 0 0 0 0)).
  { apply datetime_jan_1_in_range, Hrange. }
  split; [|split; [|split; reflexivity]].
  - intros Hlt. unfold compute_late_payment_penalty_for_year.
    rewrite (proj2 (Z.eqb_neq N 0) HN), Hstart. cbn [obind].
    rewrite Hlt. reflexivity.
  - intros Hge. unfold compute_late_payment_penalty_for_year.
    rewrite (proj2 (Z.eqb_neq N 0) HN), Hstart. cbn [obind].
    rewrite Hge. cbn [year month].
    set (k := Z.max 0 ((year as_of - (N + 2)) * 12 + (month as_of - 1))).
    pose proof (months_elapsed_whole (N + 2) as_of Hv Hge) as Hwhole.
    fold k in Hwhole.
    assert (Hsmall : 120000 <= Binary64.max_finite)
      by (vm_compute; discriminate).
    destruct Hv as (Hy & Hm & _).
    destruct (int_to_float_returns k) as [months Hmonths]; [subst k; lia|].
    destruct (round_returns cfg (principal * 0.0125 * months)%float section Hdec)
      as [penalty Hpenalty].
    exists k, months, penalty. rewrite Hmonths. cbn [obind].
    repeat split; try assumption; apply Hwhole.
Qed.

Lemma penalty_accrual_witness :
  (datetime_ltb (Datetime 2025 6 15 10 30 0 0) (Datetime (2023 + 2) 1 1 0 0 0 0)
   = true →
   compute_late_payment_penalty_for_year default_config
     (Datetime 2026 11 3 0 0 0 0) 100 2023 "TIB"
     (Some (Datetime 2025 6 15 10 30 0 0)) = Returned 0%float)
  ∧ (datetime_ltb (Datetime 2025 6 15 10 30 0 0) (Datetime (2023 + 2) 1 1 0 0 0 0)
     = false →
     ∃ months_elapsed months penalty,
       whole_months_since (2023 + 2) (Datetime 2025 6 15 10 30 0 0) months_elapsed
       ∧ int_to_float months_elapsed = Returned months
       ∧ _round default_config (100 * 0.0125 * months)%float "TIB"
         = Returned penalty
       ∧ compute_late_payment_penalty_for_year default_config
           (Datetime 2026 11 3 0 0 0 0) 100 2023 "TIB"
           (Some (Datetime 2025 6 15 10 30 0 0)) = Returned penalty)
  ∧ compute_late_payment_penalty_for_year default_config
      (Datetime 2026 11 3 0 0 0 0) 100 2023
      "TIB" (Some (Datetime 2025 6 15 0 0 0 0)) = Returned 6.25%float
  ∧ compute_late_payment_penalty_for_year default_config
      (Datetime 2026 11 3 0 0 0 0) 100 2024
      "TIB" (Some (Datetime 2025 6 1 0 0 0 0)) = Returned 0%float.
Proof.
  apply (penalty_accrual default_config (Datetime 2026 11 3 0 0 0 0)
           100%float 2023 "TIB" (Datetime 2025 6 15 10 30 0 0)).
  - lia.
  - lia.
  - unfold valid_datetime. simpl. lia.
  - vm_compute. discriminate.
Defined.

(** A tax year of 0 counts as no tax year: the penalty is 0 at any date. *)
Lemma penalty_without_tax_year
    (cfg : config) (utcnow : datetime) (principal : float) (section : string)
    (today : option datetime) :
  compute_late_payment_penalty_for_year cfg utcnow principal 0 section today
  = Returned 0%float.
Proof. reflexivity. Qed.

(** A tax year whose year N+2 is no year of the calendar raises. *)
Lemma penalty_year_out_of_range :
  compute_late_payment_penalty_for_year default_config
    (Datetime 2026 11 3 0 0 0 0) 100 9998 "TIB" None
  = Raised ValueError.
Proof. reflexivity. Qed.

(** A tax year whose year N+2 does not fit a C int raises [OverflowError]. *)
Lemma penalty_year_beyond_c_int :
  compute_late_payment_penalty_for_year default_config
    (Datetime 2026 11 3 0 0 0 0) 100 (2 ^ 31) "TIB" None
  = Raised OverflowError.
Proof. reflexivity. Qed.

(** * Further properties of the calculator and of its callers *)

(** ** The order of binary64 numbers *)

Module FloatOrder.

Ltac compare_cases :=
  repeat match goal with
         | |- context [Z.compare ?a ?b] =>
             destruct (Z.compare_spec a b); subst; cbn
         | H : context [Z.compare ?a ?b] |- _ =>
             destruct (Z.compare_spec a b); subst; cbn in H
         | |- context [Pos.compare ?a ?b] =>
             destruct (Pos.compare_spec a b); subst; cbn
         | H : context [Pos.compare ?a ?b] |- _ =>
             destruct (Pos.compare_spec a b); subst; cbn in H
         end;
  try congruence; try lia.

Lemma SFcompare_refl (x : spec_float) :
  x ≠ S754_nan → SFcompare x x = Some Eq.
Proof.
  destruct x as [[]|[]| |[] m e]; cbn; try congruence; intros _;
    rewrite Z.compare_refl; change (Pos.compare_cont Eq m m) with (Pos.compare m m);
    rewrite Pos.compare_refl; reflexivity.
Qed.

Lemma SFleb_trans (x y z : spec_float) :
  SFleb x y = true → SFleb y z = true → SFleb x z = true.
Proof.
  unfold SFleb.
  destruct x as [[]|[]| |[] mx ex], y as [[]|[]| |[] my ey],
           z as [[]|[]| |[] mz ez]; cbn; try congruence;
    change (Pos.compare_cont Eq) with Pos.compare; intros Hxy Hyz;
    compare_cases.
Qed.

Lemma SFltb_leb_trans (x y z : spec_float) :
  SFltb x y = true → SFleb y z = true → SFltb x z = true.
Proof.
  unfold SFleb, SFltb.
  destruct x as [[]|[]| |[] mx ex], y as [[]|[]| |[] my ey],
           z as [[]|[]| |[] mz ez]; cbn; try congruence;
    change (Pos.compare_cont Eq) with Pos.compare; intros Hxy Hyz;
    compare_cases.
Qed.

Lemma SFltb_not_leb (x y : spec_float) :
  SFltb x y = true → SFleb y x = false.
Proof.
  unfold SFleb, SFltb.
  destruct x as [[]|[]| |[] mx ex], y as [[]|[]| |[] my ey];
    cbn; try congruence;
    change (Pos.compare_cont Eq) with Pos.compare; intros Hxy;
    compare_cases.
Qed.

Lemma leb_trans (x y z : float) :
  (x <=? y)%float = true → (y <=? z)%float = true → (x <=? z)%float = true.
Proof. rewrite !leb_spec. apply SFleb_trans. Qed.

Lemma ltb_leb_trans (x y z : float) :
  (x <? y)%float = true → (y <=? z)%float = true → (x <? z)%float = true.
Proof. rewrite !ltb_spec, leb_spec. apply SFltb_leb_trans. Qed.

Lemma ltb_not_leb (x y : float) :
  (x <? y)%float = true → (y <=? x)%float = false.
Proof. rewrite ltb_spec, leb_spec. apply SFltb_not_leb. Qed.

Lemma leb_not_ltb (x y : float) :
  (x <=? y)%float = true → (y <? x)%float = false.
Proof.
  intros Hle. destruct (y <? x)%float eqn:Hlt; [|reflexivity].
  apply ltb_not_leb in Hlt. congruence.
Qed.

(** Every number that is not NaN equals itself. *)
Lemma eqb_refl (x : float) : is_nan x = false → (x =? x)%float = true.
Proof.
  unfold is_nan. intros Hnan.
  destruct (x =? x)%float; [reflexivity|discriminate Hnan].
Qed.

(** NaN is comparable to nothing. *)
Lemma nan_leb (x y : float) :
  is_nan x = true ∨ is_nan y = true → (x <=? y)%float = false.
Proof.
  unfold is_nan. rewrite !FloatAxioms.eqb_spec, leb_spec. unfold SFeqb, SFleb.
  intros [H|H];
    destruct (Prim2SF x) as [[]|[]| |[] mx ex], (Prim2SF y) as [[]|[]| |[] my ey];
    cbn in *; try congruence;
    rewrite Z.compare_refl in H;
    change (Pos.compare_cont Eq) with Pos.compare in H;
    rewrite Pos.compare_refl in H; discriminate H.
Qed.

End FloatOrder.

(** ** Surface category and surface multiplier *)

(** X1. The category of every covered surface, NaN included, lies between
    1 and 4; it never decreases when the surface grows; and a surface that
    is NaN, which compares with nothing, gets category 4. *)
Theorem tib_category_monotone (s1 s2 : float) :
  1 <= tib_category s1 <= 4
  ∧ ((s1 <=? s2)%float = true → tib_category s1 <= tib_category s2)
  ∧ (is_nan s1 = true → tib_category s1 = 4).
Proof.
  split; [|split].
  - unfold tib_category.
    destruct (s1 <=? 100)%float, (s1 <=? 200)%float, (s1 <=? 400)%float; lia.
  - intros Hle. unfold tib_category.
    destruct (s2 <=? 100)%float eqn:H100.
    { rewrite (FloatOrder.leb_trans _ _ _ Hle H100). lia. }
    destruct (s2 <=? 200)%float eqn:H200.
    { rewrite (FloatOrder.leb_trans _ _ _ Hle H200).
      destruct (s1 <=? 100)%float; lia. }
    destruct (s2 <=? 400)%float eqn:H400.
    { rewrite (FloatOrder.leb_trans _ _ _ Hle H400).
      destruct (s1 <=? 100)%float, (s1 <=? 200)%float; lia. }
    destruct (s1 <=? 100)%float, (s1 <=? 200)%float, (s1 <=? 400)%float; lia.
  - intros Hnan. unfold tib_category.
    rewrite !(FloatOrder.nan_leb s1) by (left; exact Hnan). reflexivity.
Qed.

Lemma tib_category_monotone_witness :
  1 <= tib_category 100 <= 4
  ∧ ((100 <=? 100.01)%float = true → tib_category 100 <= tib_category 100.01)
  ∧ (is_nan 100 = true → tib_category 100 = 4).
Proof.
  apply (tib_category_monotone 100 100.01).
Defined.

(** X2. With the default table a surface inside a bracket gets the
    multiplier of that bracket: the brackets do not overlap, so the first
    match is the only one. *)
Theorem surface_multiplier_in_bracket (bracket : surface_bracket) (s : float) :
  In bracket default_surface_categories →
  (bracket_min bracket <=? s)%float = true →
  (s <? bracket_max bracket)%float = true →
  _get_surface_multiplier default_surface_categories s
  = Some (bracket_multiplier bracket).
Proof.
  intros Hin Hmin Hmax. unfold _get_surface_multiplier.
  cbn in Hin. destruct Hin as [<-|[<-|[<-|[<-|[]]]]];
    cbn [bracket_min bracket_max bracket_multiplier] in *;
    cbn [find default_surface_categories bracket_min bracket_max
         bracket_multiplier].
  - rewrite Hmin, Hmax. reflexivity.
  - rewrite (FloatOrder.leb_not_ltb _ _ Hmin), andb_false_r.
    rewrite Hmin, Hmax. reflexivity.
  - assert (H50 : (s <? 50)%float = false).
    { destruct (s <? 50)%float eqn:H; [|reflexivity].
      assert (H' : (s <? 100)%float = true)
        by (apply (FloatOrder.ltb_leb_trans _ _ _ H); reflexivity).
      rewrite (FloatOrder.leb_not_ltb _ _ Hmin) in H'. discriminate H'. }
    rewrite H50, andb_false_r.
    rewrite (FloatOrder.leb_not_ltb _ _ Hmin), andb_false_r.
    rewrite Hmin, Hmax. reflexivity.
  - assert (Hlt : ∀ c : float, (c <=? 200)%float = true → (s <? c)%float = false).
    { intros c Hc. destruct (s <? c)%float eqn:H; [|reflexivity].
      pose proof (FloatOrder.ltb_leb_trans _ _ _ H Hc) as H'.
      rewrite (FloatOrder.leb_not_ltb _ _ Hmin) in H'. discriminate H'. }
    rewrite (Hlt 50%float eq_refl), (Hlt 100%float eq_refl),
      (Hlt 200%float eq_refl), !andb_false_r.
    rewrite Hmin, Hmax. reflexivity.
Qed.

Lemma surface_multiplier_in_bracket_witness :
  _get_surface_multiplier default_surface_categories 50 = Some 1.25%float.
Proof.
  apply (surface_multiplier_in_bracket (SurfaceBracket 50 100 "B" 1.25) 50).
  - simpl. right. left. reflexivity.
  - reflexivity.
  - reflexivity.
Defined.

(** X3. With the default table a surface outside every bracket (negative,
    NaN, or 9.0e9 and more) falls back to the multiplier of the last
    bracket, the highest one. *)
Theorem surface_multiplier_fallback (s : float) :
  (s <? 0)%float = true ∨ is_nan s = true ∨ (9.0e9 <=? s)%float = true →
  _get_surface_multiplier default_surface_categories s = Some 1.75%float.
Proof.
  intros H. unfold _get_surface_multiplier.
  cbn [find default_surface_categories bracket_min bracket_max
       bracket_multiplier].
  destruct H as [Hneg|[Hnan|Hbig]].
  - assert (Hge : ∀ c : float, (0 <=? c)%float = true → (c <=? s)%float = false).
    { intros c Hc. apply FloatOrder.ltb_not_leb.
      apply (FloatOrder.ltb_leb_trans _ _ _ Hneg Hc). }
    rewrite (Hge 0%float eq_refl), (Hge 50%float eq_refl),
      (Hge 100%float eq_refl), (Hge 200%float eq_refl).
    reflexivity.
  - rewrite !(FloatOrder.nan_leb _ s) by (right; exact Hnan). reflexivity.
  - assert (Hlt : ∀ c : float, (c <=? 9.0e9)%float = true → (s <? c)%float = false).
    { intros c Hc. apply FloatOrder.leb_not_ltb.
      apply (FloatOrder.leb_trans _ _ _ Hc Hbig). }
    rewrite (Hlt 50%float eq_refl), (Hlt 100%float eq_refl),
      (Hlt 200%float eq_refl), (Hlt 9.0e9%float eq_refl), !andb_false_r.
    reflexivity.
Qed.

Lemma surface_multiplier_fallback_witness :
  _get_surface_multiplier default_surface_categories (-1) = Some 1.75%float.
Proof.
  apply (surface_multiplier_fallback (-1)). left. reflexivity.
Defined.

(** X4. On any table the multiplier is read from the table, and the lookup
    fails (with the [IndexError] of the fallback) exactly when the table is
    empty. *)
Theorem surface_multiplier_defined
    (surface_categories : list surface_bracket) (s : float) :
  (_get_surface_multiplier surface_categories s = None
   ↔ surface_categories = [])
  ∧ (∀ m, _get_surface_multiplier surface_categories s = Some m →
          ∃ bracket, In bracket surface_categories
                     ∧ bracket_multiplier bracket = m).
Proof.
  unfold _get_surface_multiplier. split.
  - destruct (find _ surface_categories) as [b|] eqn:Hfind.
    + split; [discriminate|]. intros ->. discriminate Hfind.
    + destruct surface_categories as [|b l]; [tauto|].
      split; [|discriminate].
      destruct (last_is_Some (b :: l)) as [_ Hsome].
      destruct (Hsome ltac:(discriminate)) as [x ->]. discriminate.
  - intros m.
    destruct (find _ surface_categories) as [b|] eqn:Hfind.
    + intros [= <-]. exists b. split; [|reflexivity].
      apply find_some in Hfind. apply Hfind.
    + destruct (last surface_categories) as [b|] eqn:Hlast; [|discriminate].
      intros [= <-]. exists b. split; [|reflexivity].
      apply last_Some_elem_of in Hlast. apply list_elem_of_In, Hlast.
Qed.

(** ** The configured service rate *)

(** X5. With the default bands [_get_service_rate] gives 0 to a negative
    count, 8% to 0 and 1 service, 10% to 2, 12% to 3 and 14% to 4 and
    more. *)
Theorem get_service_rate_default (num_services : Z) :
  _get_service_rate default_config num_services
  = if num_services <? 0 then 0%float
    else if num_services <? 2 then 0.08%float
    else if num_services <? 3 then 0.10%float
    else if num_services <? 4 then 0.12%float
    else 0.14%float.
Proof.
  unfold _get_service_rate, default_config.
  cbn [TIB_service_rates fold_left fst snd].
  destruct (Z.leb_spec 0 num_services), (Z.leb_spec 2 num_services),
    (Z.leb_spec 3 num_services), (Z.leb_spec 4 num_services);
    try lia;
    destruct (Z.ltb_spec num_services 0), (Z.ltb_spec num_services 2),
      (Z.ltb_spec num_services 3), (Z.ltb_spec num_services 4);
    try lia; reflexivity.
Qed.

(** X6. The default bands of [_get_service_rate] and the ladder of
    [calculate_tib] give the same rate to a service count exactly when the
    count is at most 1 or at least 7: from 2 to 6 services they differ. *)
Theorem get_service_rate_agrees_with_ladder (services_count : nat) :
  _get_service_rate default_config (Z.of_nat services_count)
  = tib_service_rate services_count
  ↔ (services_count <= 1 ∨ 7 <= services_count)%nat.
Proof.
  rewrite get_service_rate_default.
  do 7 (destruct services_count as [|services_count];
        [cbn; split; [try (intros _; lia); float_neq
                     |try reflexivity; lia]|]).
  split; [intros _; lia|intros _].
  unfold tib_service_rate.
  replace (S (S (S (S (S (S (S services_count))))))) with (services_count + 7)%nat
    by lia.
  destruct (Nat.leb_spec (services_count + 7) 2); [lia|].
  destruct (Nat.leb_spec (services_count + 7) 4); [lia|].
  destruct (Nat.leb_spec (services_count + 7) 6); [lia|].
  destruct (Z.ltb_spec (Z.of_nat (services_count + 7)) 0); [lia|].
  destruct (Z.ltb_spec (Z.of_nat (services_count + 7)) 2); [lia|].
  destruct (Z.ltb_spec (Z.of_nat (services_count + 7)) 3); [lia|].
  destruct (Z.ltb_spec (Z.of_nat (services_count + 7)) 4); [lia|].
  reflexivity.
Qed.

(** X7. On any table [_get_service_rate] takes the band that comes last in
    the table among those whose threshold the count reaches, whatever the
    thresholds of the bands before it, and 0 when the count reaches no
    threshold. *)
Theorem get_service_rate_last_band
    (cfg : config) (num_services : Z)
    (before after : list (Z * float)) (min_services : Z) (rate_percent : float) :
  TIB_service_rates cfg = before ++ (min_services, rate_percent) :: after →
  min_services <= num_services →
  Forall (fun band => num_services < fst band) after →
  _get_service_rate cfg num_services = (rate_percent / 100)%float.
Proof.
  intros Hbands Hmin Hafter. unfold _get_service_rate. rewrite Hbands.
  rewrite fold_left_app. cbn [fold_left fst snd].
  rewrite (proj2 (Z.leb_le _ _) Hmin).
  f_equal. clear Hbands.
  induction Hafter as [|band after Hband _ IH]; [reflexivity|].
  cbn [fold_left]. rewrite (proj2 (Z.leb_gt _ _) Hband). exact IH.
Qed.

Lemma get_service_rate_last_band_witness :
  _get_service_rate
    {| TIB_service_rates := [(3, 12%float); (0, 8%float); (9, 14%float)];
       TIB_currency_decimals := 3; TTNB_currency_decimals := 3 |} 5
  = (8 / 100)%float.
Proof.
  apply (get_service_rate_last_band
           {| TIB_service_rates := [(3, 12%float); (0, 8%float); (9, 14%float)];
              TIB_currency_decimals := 3; TTNB_currency_decimals := 3 |}
           5 [(3, 12%float)] [(9, 14%float)] 0 8%float).
  - reflexivity.
  - lia.
  - constructor; [simpl; lia|constructor].
Defined.

Lemma get_service_rate_no_band (cfg : config) (num_services : Z) :
  Forall (fun band => num_services < fst band) (TIB_service_rates cfg) →
  _get_service_rate cfg num_services = (0 / 100)%float.
Proof.
  intros Hall. unfold _get_service_rate. f_equal.
  induction Hall as [|band bands Hband _ IH]; [reflexivity|].
  cbn [fold_left]. rewrite (proj2 (Z.leb_gt _ _) Hband). exact IH.
Qed.

(** ** Exemption rules *)

(** X8. [_match_exemption] returns the first rule, in the declared order,
    whose conditions all hold: the rules before it do not match; it returns
    [None] exactly when no rule matches. *)
Theorem match_exemption_first_match
    (utcnow : datetime) (rules : list exemption_conditions)
    (context : exemption_context) :
  (_match_exemption utcnow rules context = None
   ↔ Forall (fun cond => rule_matches utcnow cond context = false) rules)
  ∧ (∀ rule, _match_exemption utcnow rules context = Some rule →
       rule_matches utcnow rule context = true
       ∧ ∃ before after,
           rules = before ++ rule :: after
           ∧ Forall (fun cond => rule_matches utcnow cond context = false)
               before).
Proof.
  unfold _match_exemption. induction rules as [|cond rules [IHnone IHsome]].
  - split; [split; [constructor|reflexivity]|discriminate].
  - cbn [find]. destruct (rule_matches utcnow cond context) eqn:Hcond.
    + split.
      * split; [discriminate|]. intros H. inversion H; congruence.
      * intros rule [= <-]. split; [exact Hcond|].
        exists [], rules. split; [reflexivity|constructor].
    + split.
      * rewrite IHnone. split.
        -- intros H. constructor; assumption.
        -- intros H. inversion H; assumption.
      * intros rule Hfind.
        destruct (IHsome rule Hfind) as (Hrule & before & after & -> & Hbefore).
        split; [exact Hrule|].
        exists (cond :: before), after. split; [reflexivity|].
        constructor; assumption.
Qed.

(** X9. A property without a construction year (no year, or year 0) never
    matches a rule that limits the age: whatever rule is returned has no
    [max_age_years]. *)
Theorem match_exemption_needs_construction_year
    (utcnow : datetime) (rules : list exemption_conditions)
    (context : exemption_context) (rule : exemption_conditions) :
  ctx_construction_year context = None
  ∨ ctx_construction_year context = Some 0 →
  _match_exemption utcnow rules context = Some rule →
  max_age_years rule = None.
Proof.
  intros Hyear Hfind.
  apply find_some in Hfind as [_ Hmatch].
  unfold rule_matches in Hmatch.
  destruct (max_age_years rule) as [max_age|]; [|reflexivity].
  destruct Hyear as [Hy|Hy]; rewrite Hy in Hmatch; discriminate Hmatch.
Qed.

Lemma match_exemption_needs_construction_year_witness :
  max_age_years (ExemptionConditions (Some ["residential"]) None None None)
  = None.
Proof.
  apply (match_exemption_needs_construction_year
           (Datetime 2025 6 15 0 0 0 0)
           [ExemptionConditions None None None (Some 5);
            ExemptionConditions (Some ["residential"]) None None None]
           (ExemptionContext (Some "Residential") None None None)).
  - left. reflexivity.
  - reflexivity.
Defined.

(** X10. A rule that limits the age matches only buildings of at most that
    age, counted in calendar years from the construction year to the year of
    the clock; a construction year in the future counts as age 0. *)
Theorem match_exemption_max_age
    (utcnow : datetime) (rules : list exemption_conditions)
    (context : exemption_context) (rule : exemption_conditions)
    (max_age : Z) :
  _match_exemption utcnow rules context = Some rule →
  max_age_years rule = Some max_age →
  ∃ y, ctx_construction_year context = Some y
       ∧ y ≠ 0
       ∧ 0 <= max_age
       ∧ year utcnow - y <= max_age.
Proof.
  intros Hfind Hage.
  apply find_some in Hfind as [_ Hmatch].
  unfold rule_matches in Hmatch. rewrite Hage in Hmatch.
  unfold _years_since in Hmatch.
  destruct (ctx_construction_year context) as [y|]; [|discriminate Hmatch].
  destruct (Z.eqb_spec y 0) as [|Hy]; [discriminate Hmatch|].
  destruct (Z.ltb_spec max_age (Z.max 0 (year utcnow - y)));
    [discriminate Hmatch|].
  exists y. repeat split; [assumption|lia..].
Qed.

Lemma match_exemption_max_age_witness :
  ∃ y, ctx_construction_year (ExemptionContext None None None (Some 2022))
       = Some y
       ∧ y ≠ 0 ∧ 0 <= 5 ∧ year (Datetime 2025 6 15 0 0 0 0) - y <= 5.
Proof.
  apply (match_exemption_max_age
           (Datetime 2025 6 15 0 0 0 0)
           [ExemptionConditions None None None (Some 5)]
           (ExemptionContext None None None (Some 2022))
           (ExemptionConditions None None None (Some 5)) 5).
  - reflexivity.
  - reflexivity.
Defined.

(** X11. The values of the context are compared without regard to case, and
    a missing value counts as the empty string: two contexts whose values
    agree in lower case, and that have the same construction year, match the
    same rule. *)
Theorem match_exemption_ignores_case
    (utcnow : datetime) (rules : list exemption_conditions)
    (c1 c2 : exemption_context) :
  str_lower (default "" (ctx_affectation c1))
  = str_lower (default "" (ctx_affectation c2)) →
  str_lower (default "" (ctx_land_type c1))
  = str_lower (default "" (ctx_land_type c2)) →
  str_lower (default "" (ctx_exemption_reason c1))
  = str_lower (default "" (ctx_exemption_reason c2)) →
  ctx_construction_year c1 = ctx_construction_year c2 →
  _match_exemption utcnow rules c1 = _match_exemption utcnow rules c2.
Proof.
  intros Ha Hl Hr Hy. unfold _match_exemption.
  assert (Hsame : ∀ cond, rule_matches utcnow cond c1
                          = rule_matches utcnow cond c2).
  { assert (Hd : ∀ v : option string,
              match v with Some s => s | None => "" end = default "" v)
      by (intros []; reflexivity).
    intros cond. unfold rule_matches, lower_in.
    rewrite !Hd, Ha, Hl, Hr, Hy. reflexivity. }
  induction rules as [|cond rules IH]; [reflexivity|].
  cbn [find]. rewrite Hsame, IH. reflexivity.
Qed.

Lemma match_exemption_ignores_case_witness :
  _match_exemption (Datetime 2025 6 15 0 0 0 0)
    [ExemptionConditions (Some ["Agricultural"]) None None None]
    (ExemptionContext (Some "AGRICULTURAL") None (Some "") (Some 2000))
  = _match_exemption (Datetime 2025 6 15 0 0 0 0)
      [ExemptionConditions (Some ["Agricultural"]) None None None]
      (ExemptionContext (Some "agricultural") (Some "") None (Some 2000)).
Proof.
  apply (match_exemption_ignores_case (Datetime 2025 6 15 0 0 0 0)
           [ExemptionConditions (Some ["Agricultural"]) None None None]
           (ExemptionContext (Some "AGRICULTURAL") None (Some "") (Some 2000))
           (ExemptionContext (Some "agricultural") (Some "") None (Some 2000)));
    reflexivity.
Defined.

(** ** The deprecated penalty *)

(** A finite number times zero is a zero. *)
Lemma mul_zero_finite (x : float) :
  is_nan x = false → is_infinity x = false →
  ∃ s, Prim2SF (x * 0)%float = S754_zero s.
Proof.
  unfold is_nan, is_infinity.
  rewrite !FloatAxioms.eqb_spec, abs_spec, mul_spec.
  change (Prim2SF 0) with (S754_zero false).
  change (Prim2SF infinity) with (S754_infinity false).
  destruct (Prim2SF x) as [s|s| |s m e]; cbn.
  - intros _ _. eexists; reflexivity.
  - intros _ H. discriminate H.
  - intros H _. discriminate H.
  - intros _ _. eexists; reflexivity.
Qed.

Lemma round_zero (cfg : config) (x : float) (section : string) (s : bool) :
  Prim2SF x = S754_zero s →
  _round cfg x section = Returned x ∧ is_zero x = true.
Proof.
  intros Hx. unfold _round, py_round, is_zero.
  rewrite FloatAxioms.eqb_spec, Hx. split; reflexivity.
Qed.

(** X12. [calculate_penalty] charges nothing for a late payment of fewer
    than 30 days (a negative number of days included), whatever the finite
    tax amount and the rounding precision: only whole periods of 30 days
    count. *)
Theorem calculate_penalty_under_a_month
    (cfg : config) (tax_amount : float) (days_late : Z) :
  days_late < 30 →
  is_nan tax_amount = false →
  is_infinity tax_amount = false →
  ∃ penalty,
    calculate_penalty cfg tax_amount "late_payment" days_late = Returned penalty
    ∧ is_zero penalty = true.
Proof.
  intros Hdays Hnan Hinf. unfold calculate_penalty. cbn [String.eqb Ascii.eqb].
  change (String.eqb "late_payment" "late_declaration") with false.
  change (String.eqb "late_payment" "late_payment") with true. cbv iota.
  assert (Hmonths : Z.max 0 (days_late / 30) = 0).
  { assert (days_late / 30 < 1) by (apply Z.div_lt_upper_bound; lia). lia. }
  rewrite Hmonths. change (int_to_float 0) with (Returned 0%float).
  cbn [obind]. change (0 * 0.0125)%float with 0%float.
  destruct (mul_zero_finite tax_amount Hnan Hinf) as [s Hs].
  exists (tax_amount * 0)%float. apply (round_zero cfg _ "TIB" s Hs).
Qed.

Lemma calculate_penalty_under_a_month_witness :
  ∃ penalty,
    calculate_penalty default_config 1500 "late_payment" 29 = Returned penalty
    ∧ is_zero penalty = true.
Proof.
  apply (calculate_penalty_under_a_month default_config 1500 29).
  - lia.
  - reflexivity.
  - reflexivity.
Defined.

(** ** The penalty and the calendar *)

(** A valid instant precedes January 1 of year [y] exactly when its year
    does. *)
Lemma datetime_ltb_jan_1 (t : datetime) (y : Z) :
  valid_datetime t →
  datetime_ltb t (Datetime y 1 1 0 0 0 0) = (year t <? y).
Proof.
  intros (_ & Hm & Hd & Hh & Hmi & Hs & Hus).
  unfold datetime_ltb, datetime_fields.
  cbn [lex_ltb year month day hour minute second microsecond].
  rewrite (proj2 (Z.ltb_ge (month t) 1)), (proj2 (Z.ltb_ge (day t) 1)),
    (proj2 (Z.ltb_ge (hour t) 0)), (proj2 (Z.ltb_ge (minute t) 0)),
    (proj2 (Z.ltb_ge (second t) 0)), (proj2 (Z.ltb_ge (microsecond t) 0))
    by lia.
  cbn [orb]. rewrite !andb_false_r. apply orb_false_r.
Qed.

(** X13. The penalty is a step function of the as-of date: two valid
    instants of the same calendar month give the same penalty, whatever the
    day and the time of day. *)
Theorem penalty_constant_within_month
    (cfg : config) (utcnow : datetime) (principal : float) (N : Z)
    (section : string) (t1 t2 : datetime) :
  valid_datetime t1 → valid_datetime t2 →
  year t1 = year t2 → month t1 = month t2 →
  compute_late_payment_penalty_for_year cfg utcnow principal N section (Some t1)
  = compute_late_payment_penalty_for_year cfg utcnow principal N section (Some t2).
Proof.
  intros Hv1 Hv2 Hy Hm. unfold compute_late_payment_penalty_for_year.
  destruct (N =? 0); [reflexivity|].
  unfold datetime_jan_1.
  destruct (negb (fits_c_int (N + 2))); [reflexivity|].
  destruct ((1 <=? N + 2) && (N + 2 <=? 9999)); [|reflexivity].
  cbn [obind]. rewrite !datetime_ltb_jan_1 by assumption.
  rewrite Hy, Hm. reflexivity.
Qed.

Lemma penalty_constant_within_month_witness :
  compute_late_payment_penalty_for_year default_config
    (Datetime 2026 11 3 0 0 0 0) 100 2023 "TIB"
    (Some (Datetime 2025 6 1 0 0 0 0))
  = compute_late_payment_penalty_for_year default_config
      (Datetime 2026 11 3 0 0 0 0) 100 2023 "TIB"
      (Some (Datetime 2025 6 30 23 59 59 999999)).
Proof.
  apply (penalty_constant_within_month default_config
           (Datetime 2026 11 3 0 0 0 0) 100 2023 "TIB"
           (Datetime 2025 6 1 0 0 0 0) (Datetime 2025 6 30 23 59 59 999999)).
  - unfold valid_datetime. simpl. lia.
  - unfold valid_datetime. simpl. lia.
  - reflexivity.
  - reflexivity.
Defined.

(** X14. A tax of year [N >= 0] that has a penalty other than zero at some
    instant is payable on that day: penalties start a full year after the
    payable window of the payment endpoints opens. *)
Theorem penalty_implies_payable
    (cfg : config) (utcnow : datetime) (principal : float) (N : Z)
    (section : string) (t : datetime) (penalty : float) :
  valid_datetime t →
  0 <= N →
  compute_late_payment_penalty_for_year cfg utcnow principal N section (Some t)
  = Returned penalty →
  is_zero penalty = false →
  is_payable (Date (year t) (month t) (day t)) N = Returned true.
Proof.
  intros Hv HN Hpen Hnz. unfold compute_late_payment_penalty_for_year in Hpen.
  destruct (N =? 0); [injection Hpen as <-; discriminate Hnz|].
  unfold datetime_jan_1 in Hpen.
  destruct (fits_c_int (N + 2)); cbn [negb] in Hpen; [|discriminate Hpen].
  destruct (Z.leb_spec (N + 2) 9999) as [Hmax|];
    [|rewrite andb_false_r in Hpen; discriminate Hpen].
  rewrite (proj2 (Z.leb_le 1 (N + 2))) in Hpen by lia.
  cbn [andb obind] in Hpen. rewrite datetime_ltb_jan_1 in Hpen by assumption.
  destruct (Z.ltb_spec (year t) (N + 2)) as [|Hyear];
    [injection Hpen as <-; discriminate Hnz|].
  unfold is_payable, date_ltb.
  rewrite fits_c_int_year by lia.
  rewrite (proj2 (Z.leb_le 1 (N + 1))), (proj2 (Z.leb_le (N + 1) 9999)) by lia.
  cbn [negb andb lex_ltb date_year date_month date_day].
  rewrite (proj2 (Z.ltb_ge (year t) (N + 1))) by lia.
  rewrite (proj2 (Z.eqb_neq (year t) (N + 1))) by lia.
  reflexivity.
Qed.

Lemma penalty_implies_payable_witness :
  is_payable (Date 2025 6 15) 2023 = Returned true.
Proof.
  apply (penalty_implies_payable default_config (Datetime 2026 11 3 0 0 0 0)
           100 2023 "TIB" (Datetime 2025 6 15 0 0 0 0) 6.25).
  - unfold valid_datetime. simpl. lia.
  - lia.
  - reflexivity.
  - reflexivity.
Defined.

(** X15. Throughout the calendar year after the tax year [N]
    ([1 <= N <= 9997]) the tax is payable and has no penalty. *)
Theorem grace_year_payable_without_penalty
    (cfg : config) (utcnow : datetime) (principal : float) (N : Z)
    (section : string) (t : datetime) :
  valid_datetime t →
  1 <= N <= 9997 →
  year t = N + 1 →
  compute_late_payment_penalty_for_year cfg utcnow principal N section (Some t)
  = Returned 0%float
  ∧ is_payable (Date (year t) (month t) (day t)) N = Returned true.
Proof.
  intros Hv HN Hyear. pose proof Hv as ((_ & Hy) & Hm & Hd & _).
  split.
  - unfold compute_late_payment_penalty_for_year.
    rewrite (proj2 (Z.eqb_neq N 0)) by lia.
    rewrite datetime_jan_1_in_range by lia.
    cbn [obind]. rewrite datetime_ltb_jan_1 by assumption.
    rewrite (proj2 (Z.ltb_lt (year t) (N + 2))) by lia. reflexivity.
  - unfold is_payable, date_ltb.
    rewrite fits_c_int_year by lia.
    rewrite (proj2 (Z.leb_le 1 (N + 1))), (proj2 (Z.leb_le (N + 1) 9999)) by lia.
    cbn [negb andb lex_ltb date_year date_month date_day].
    rewrite Hyear, Z.ltb_irrefl, Z.eqb_refl.
    rewrite (proj2 (Z.ltb_ge (month t) 1)), (proj2 (Z.ltb_ge (day t) 1)) by lia.
    cbn [orb]. rewrite !andb_false_r. reflexivity.
Qed.

Lemma grace_year_payable_without_penalty_witness :
  compute_late_payment_penalty_for_year default_config
    (Datetime 2026 11 3 0 0 0 0) 100 2024 "TIB"
    (Some (Datetime 2025 6 1 0 0 0 0))
  = Returned 0%float
  ∧ is_payable (Date 2025 6 1) 2024 = Returned true.
Proof.
  apply (grace_year_payable_without_penalty default_config
           (Datetime 2026 11 3 0 0 0 0) 100 2024 "TIB"
           (Datetime 2025 6 1 0 0 0 0)).
  - unfold valid_datetime. simpl. lia.
  - lia.
  - reflexivity.
Defined.

(** ** The refresh of the penalty *)

Lemma is_nan_Prim2SF (x : float) : is_nan x = true → Prim2SF x = S754_nan.
Proof.
  unfold is_nan. rewrite FloatAxioms.eqb_spec. unfold SFeqb.
  destruct (Prim2SF x) as [s|s| |s m e] eqn:Hx; [..|reflexivity|];
    rewrite FloatOrder.SFcompare_refl by discriminate; discriminate.
Qed.

Lemma eqb_nan_r (x y : float) : is_nan y = true → (x =? y)%float = false.
Proof.
  intros Hy. rewrite FloatAxioms.eqb_spec, (is_nan_Prim2SF y Hy).
  unfold SFeqb. destruct (Prim2SF x) as [[]|[]| |[] m e]; reflexivity.
Qed.

Lemma add_nan_l (x y : float) : is_nan x = true → is_nan (x + y) = true.
Proof.
  intros Hx. unfold is_nan at 1.
  rewrite FloatAxioms.eqb_spec, add_spec, (is_nan_Prim2SF x Hx). reflexivity.
Qed.





(** X17. A tax whose amount is NaN is written at every refresh: the
    comparison of the stored total with the fresh one never holds. *)
Theorem refresh_penalty_nan_always_writes
    (cfg : config) (utcnow : datetime) (tax tax' : Tax.t) (updated : bool) :
  is_nan (Tax.tax_amount tax) = true →
  refresh_penalty cfg utcnow tax = Returned (tax', updated) →
  updated = true.
Proof.
  unfold refresh_penalty. intros Hnan Hrefresh.
  destruct (compute_late_payment_penalty_for_year cfg utcnow
              (Tax.tax_amount tax) (Tax.tax_year tax)
              match Tax.kind tax with TIB => "TIB" | TTNB => "TTNB" end None)
    as [new_penalty|]; [|discriminate Hrefresh].
  cbn [obind] in Hrefresh.
  rewrite (eqb_nan_r _ _ (add_nan_l _ new_penalty Hnan)) in Hrefresh.
  cbn [negb] in Hrefresh. rewrite orb_true_r in Hrefresh.
  injection Hrefresh as _ <-. reflexivity.
Qed.

Lemma refresh_penalty_nan_always_writes_witness :
  refresh_penalty default_config (Datetime 2025 6 15 0 0 0 0)
    (Tax.Make TIB 2023 nan (Some nan) (Some nan))
  = Returned (Tax.Make TIB 2023 nan (Some nan) (Some nan), true)
  ∧ true = true.
Proof.
  split; [reflexivity|].
  apply (refresh_penalty_nan_always_writes default_config
           (Datetime 2025 6 15 0 0 0 0)
           (Tax.Make TIB 2023 nan (Some nan) (Some nan))
           (Tax.Make TIB 2023 nan (Some nan) (Some nan))
           true).
  - reflexivity.
  - reflexivity.
Defined.

(** ** The shape of the results *)

Ltac shape_leaf :=
  intros [= <-];
  first [ left; split; [reflexivity|]; do 3 eexists; repeat split; reflexivity
        | right; split; [eexists; reflexivity|repeat split; reflexivity] ].

Lemma calculate_tib_shape
    (float_of_str : string → outcome float) (cfg : config)
    (services : service_table) (o d : gmap string pyval) :
  calculate_tib float_of_str cfg services o = Returned d →
  (d !! "error" = None ∧ tax_result d) ∨ error_result d.
Proof.
  unfold calculate_tib, attr.
  destruct (truthy (getattr o "is_exempt" (PBool false))); [shape_leaf|].
  destruct (o !! "surface_couverte") as [v|]; [|discriminate]. cbn [obind].
  destruct (py_float float_of_str v) as [surface|]; [|discriminate].
  cbn [obind].
  destruct (truthy (getattr o "reference_price_per_m2" PNone));
    cbn [negb]; [|shape_leaf].
  destruct (py_float float_of_str _) as [price|]; [|discriminate].
  cbn [obind].
  destruct (o !! "commune_id") as [commune|]; [|discriminate]. cbn [obind].
  destruct (py_strip _) as [locality|]; [|discriminate]. cbn [obind].
  destruct (tib_services_count services commune locality) as [count|];
    [|discriminate]. cbn [obind].
  destruct (_round cfg (0.02 * (price * surface)) "TIB") as [base|];
    [|discriminate]. cbn [obind].
  destruct (_round cfg _ "TIB") as [tax|]; [|discriminate]. cbn [obind].
  shape_leaf.
Qed.

Lemma calculate_ttnb_shape
    (float_of_str : string → outcome float) (cfg : config)
    (o d : gmap string pyval) :
  calculate_ttnb float_of_str cfg o = Returned d →
  (d !! "error" = None ∧ tax_result d) ∨ error_result d.
Proof.
  unfold calculate_ttnb.
  destruct (truthy (getattr o "is_exempt" (PBool false))); [shape_leaf|].
  destruct (truthy (getattr o "urban_zone" PNone)); cbn [negb]; [|shape_leaf].
  destruct (getattr o "urban_zone" PNone) as [| | | |zone|]; try discriminate.
  destruct (dict_get ZONE_TARIFFS (str_lower zone)) as [tariff|];
    [|shape_leaf].
  destruct (is_zero tariff); [shape_leaf|].
  destruct (py_float float_of_str _) as [surface|]; [|discriminate].
  cbn [obind].
  destruct (surface <=? 0)%float; [shape_leaf|].
  destruct (_round cfg _ "TTNB") as [tax|]; [|discriminate]. cbn [obind].
  shape_leaf.
Qed.

(** X18. Whatever the input, a dictionary returned by [calculate_tib] or
    [calculate_ttnb] is of one of two shapes: without an [error] key it has
    [base_amount], [rate_percent], [tax_amount] and [total_amount] as
    numbers, the total being the tax; with an [error] key the error is a
    string and there is no amount. The callers' [calc_result['tax_amount']]
    after the test ['error' in calc_result] therefore never fails. *)
Theorem calculators_result_shape
    (float_of_str : string → outcome float) (cfg : config)
    (services : service_table) (o d : gmap string pyval) :
  calculate_tib float_of_str cfg services o = Returned d
  ∨ calculate_ttnb float_of_str cfg o = Returned d →
  (d !! "error" = None ∧ tax_result d) ∨ error_result d.
Proof.
  intros [H|H];
    [eapply calculate_tib_shape|eapply calculate_ttnb_shape]; exact H.
Qed.

Lemma calculators_result_shape_witness :
  let d := dict [("error", PStr "Land surface must be greater than 0")] in
  (d !! "error" = None ∧ tax_result d) ∨ error_result d.
Proof.
  apply (calculators_result_shape no_numeric_strings default_config
           (commune_wide 3)
           (mock_land (PFloat (-50)) (PStr "faible_densite"))
           (dict [("error", PStr "Land surface must be greater than 0")])).
  right. reflexivity.
Defined.

(** ** The public estimator *)

Lemma getattr_insert_ne (d : gmap string pyval) (k k' : string) (v default : pyval) :
  k ≠ k' → getattr (<[k := v]> d) k' default = getattr d k' default.
Proof. intros Hne. unfold getattr. rewrite lookup_insert_ne by exact Hne. reflexivity. Qed.

Lemma getattr_insert_eq (d : gmap string pyval) (k : string) (v default : pyval) :
  getattr (<[k := v]> d) k default = v.
Proof. unfold getattr. rewrite lookup_insert_eq. reflexivity. Qed.

(** X19. For every request body that is a JSON object [estimate_tax]
    answers, and raises nothing: 200 with an estimate that has no [error]
    and carries the amounts, or 400 with the error string of the calculator
    (or of the missing [tax_type]), or 400 with the text of the exception
    that the calculator raised. *)
Theorem estimate_tax_answers
    (float_of_str : string → outcome float) (cfg : config)
    (services : service_table) (data : gmap string pyval) :
  (∃ estimate,
     estimate_tax float_of_str cfg services data = (BodyEstimate estimate, 200)
     ∧ estimate !! "error" = None ∧ tax_result estimate)
  ∨ (∃ message,
       estimate_tax float_of_str cfg services data
       = (BodyError (PStr message), 400))
  ∨ (∃ e,
       estimate_tax float_of_str cfg services data = (BodyException e, 400)).
Proof.
  unfold estimate_tax.
  destruct (truthy (getattr data "tax_type" PNone)); cbn [negb];
    [|right; left; eexists; reflexivity].
  assert (Hshape : ∀ result : outcome (gmap string pyval),
            (∀ d, result = Returned d →
                  (d !! "error" = None ∧ tax_result d) ∨ error_result d) →
            (∃ estimate,
               match result with
               | Returned result =>
                   match result !! "error" with
                   | Some error => (BodyError error, 400)
                   | None => (BodyEstimate result, 200)
                   end
               | Raised e => (BodyException e, 400)
               end = (BodyEstimate estimate, 200)
               ∧ estimate !! "error" = None ∧ tax_result estimate)
            ∨ (∃ message,
                 match result with
                 | Returned result =>
                     match result !! "error" with
                     | Some error => (BodyError error, 400)
                     | None => (BodyEstimate result, 200)
                     end
                 | Raised e => (BodyException e, 400)
                 end = (BodyError (PStr message), 400))
            ∨ (∃ e,
                 match result with
                 | Returned result =>
                     match result !! "error" with
                     | Some error => (BodyError error, 400)
                     | None => (BodyEstimate result, 200)
                     end
                 | Raised e => (BodyException e, 400)
                 end = (BodyException e, 400))).
  { intros [d|e] Hd; [|right; right; eexists; reflexivity].
    destruct (Hd d eq_refl) as [[Hnone Htax]|[[message Hmsg] _]].
    - rewrite Hnone. left. exists d. auto.
    - rewrite Hmsg. right. left. eexists; reflexivity. }
  destruct (py_eq_str (getattr data "tax_type" PNone) "tib"); apply Hshape.
  - intros d. apply calculate_tib_shape.
  - intros d. apply calculate_ttnb_shape.
Qed.

(** X20. [estimate_tax] rejects no tax type: every [tax_type] that is given
    and is not the string 'tib' (for instance 'TIB' or a number) gets the
    answer of 'ttnb', the estimate of the land tax, which does not depend on
    the service table. *)
Theorem estimate_tax_unknown_type_is_land
    (float_of_str : string → outcome float) (cfg : config)
    (services services' : service_table) (data : gmap string pyval) :
  truthy (getattr data "tax_type" PNone) = true →
  getattr data "tax_type" PNone ≠ PStr "tib" →
  estimate_tax float_of_str cfg services data
  = estimate_tax float_of_str cfg services' (<["tax_type" := PStr "ttnb"]> data).
Proof.
  intros Htruthy Hne. unfold estimate_tax.
  rewrite Htruthy, getattr_insert_eq. cbn [negb truthy py_eq_str].
  assert (Hnot : py_eq_str (getattr data "tax_type" PNone) "tib" = false).
  { destruct (getattr data "tax_type" PNone) as [| | | |s|]; try reflexivity.
    cbn [py_eq_str]. destruct (String.eqb_spec s "tib") as [->|];
      [contradiction|reflexivity]. }
  rewrite Hnot.
  change (String.eqb "ttnb" "tib") with false.
  change (negb (String.eqb "ttnb" "")) with true. cbv iota.
  unfold MockLand. rewrite !getattr_insert_ne by discriminate. reflexivity.
Qed.

Lemma estimate_tax_unknown_type_is_land_witness :
  let data : gmap string pyval :=
    dict [("tax_type", PStr "TIB"); ("surface", PFloat 5000);
          ("urban_zone", PStr "faible_densite")] in
  estimate_tax no_numeric_strings default_config (commune_wide 3) data
  = estimate_tax no_numeric_strings default_config (commune_wide 0)
      (<["tax_type" := PStr "ttnb"]> data).
Proof.
  apply (estimate_tax_unknown_type_is_land no_numeric_strings default_config
           (commune_wide 3) (commune_wide 0)
           (dict [("tax_type", PStr "TIB"); ("surface", PFloat 5000);
                  ("urban_zone", PStr "faible_densite")])).
  - reflexivity.
  - discriminate.
Defined.

(** X21. A request without a surface is estimated silently for a default
    surface: 100 m2 for a property and 1000 m2 for a land. *)
Theorem estimate_tax_default_surface
    (float_of_str : string → outcome float) (cfg : config)
    (services : service_table) (data : gmap string pyval) :
  data !! "surface_couverte" = None →
  data !! "surface" = None →
  estimate_tax float_of_str cfg services data
  = estimate_tax float_of_str cfg services
      (<["surface_couverte" := PInt 100]> (<["surface" := PInt 1000]> data)).
Proof.
  intros Hsc Hs.
  set (data' := <["surface_couverte" := PInt 100]> (<["surface" := PInt 1000]> data)).
  assert (Hother : ∀ k default,
            k ≠ "surface_couverte" → k ≠ "surface" →
            getattr data' k default = getattr data k default).
  { intros k default H1 H2. unfold data'.
    rewrite !getattr_insert_ne by congruence. reflexivity. }
  assert (Hsc' : getattr data' "surface_couverte" (PInt 100)
                 = getattr data "surface_couverte" (PInt 100)).
  { unfold data'. rewrite getattr_insert_eq. unfold getattr.
    rewrite Hsc. reflexivity. }
  assert (Hs' : getattr data' "surface" (PInt 1000)
                = getattr data "surface" (PInt 1000)).
  { unfold data'. rewrite getattr_insert_ne by discriminate.
    rewrite getattr_insert_eq. unfold getattr. rewrite Hs. reflexivity. }
  unfold estimate_tax, MockProperty, MockLand.
  rewrite Hsc', Hs'.
  rewrite !(Hother "tax_type"), !(Hother "reference_price_per_m2"),
    !(Hother "reference_price"), !(Hother "commune_id"),
    !(Hother "delegation"), !(Hother "is_exempt"),
    !(Hother "exemption_reason"), !(Hother "urban_zone") by discriminate.
  reflexivity.
Qed.

Lemma estimate_tax_default_surface_witness :
  let data : gmap string pyval :=
    dict [("tax_type", PStr "ttnb"); ("urban_zone", PStr "faible_densite")] in
  estimate_tax no_numeric_strings default_config (commune_wide 3) data
  = estimate_tax no_numeric_strings default_config (commune_wide 3)
      (<["surface_couverte" := PInt 100]> (<["surface" := PInt 1000]> data)).
Proof.
  apply (estimate_tax_default_surface no_numeric_strings default_config
           (commune_wide 3)
           (dict [("tax_type", PStr "ttnb");
                  ("urban_zone", PStr "faible_densite")]));
    reflexivity.
Defined.

(** X22. A covered surface that is given as JSON null is not replaced by
    the default: for a property that is not exempt the estimate fails with
    the [TypeError] of [float(None)], answered as 400. *)
Theorem estimate_tax_null_surface
    (float_of_str : string → outcome float) (cfg : config)
    (services : service_table) (data : gmap string pyval) :
  data !! "tax_type" = Some (PStr "tib") →
  data !! "surface_couverte" = Some PNone →
  truthy (getattr data "is_exempt" (PBool false)) = false →
  estimate_tax float_of_str cfg services data = (BodyException TypeError, 400).
Proof.
  intros Htype Hsc Hexempt. unfold estimate_tax.
  unfold getattr at 1 2. rewrite Htype.
  cbn [truthy negb py_eq_str].
  change (String.eqb "tib" "") with false.
  change (String.eqb "tib" "tib") with true. cbv iota. cbn [negb].
  assert (Hcalc : calculate_tib float_of_str cfg services (MockProperty data)
                  = Raised TypeError).
  { unfold calculate_tib, attr, MockProperty.
    assert (He : getattr
                   (dict [("surface_couverte",
                           getattr data "surface_couverte" (PInt 100));
                          ("reference_price_per_m2",
                           py_or (getattr data "reference_price_per_m2" PNone)
                                 (getattr data "reference_price" PNone));
                          ("commune_id", getattr data "commune_id" PNone);
                          ("delegation", getattr data "delegation" PNone);
                          ("is_exempt", getattr data "is_exempt" (PBool false));
                          ("exemption_reason",
                           getattr data "exemption_reason" PNone)])
                   "is_exempt" (PBool false)
                 = getattr data "is_exempt" (PBool false)) by reflexivity.
    rewrite He, Hexempt.
    assert (Hs : dict [("surface_couverte",
                        getattr data "surface_couverte" (PInt 100));
                       ("reference_price_per_m2",
                        py_or (getattr data "reference_price_per_m2" PNone)
                              (getattr data "reference_price" PNone));
                       ("commune_id", getattr data "commune_id" PNone);
                       ("delegation", getattr data "delegation" PNone);
                       ("is_exempt", getattr data "is_exempt" (PBool false));
                       ("exemption_reason",
                        getattr data "exemption_reason" PNone)]
                 !! "surface_couverte"
                 = Some (getattr data "surface_couverte" (PInt 100)))
      by reflexivity.
    rewrite Hs. unfold getattr at 1. rewrite Hsc. reflexivity. }
  rewrite Hcalc. reflexivity.
Qed.

Lemma estimate_tax_null_surface_witness :
  estimate_tax no_numeric_strings default_config (commune_wide 3)
    (dict [("tax_type", PStr "tib"); ("surface_couverte", PNone);
           ("reference_price_per_m2", PFloat 200)])
  = (BodyException TypeError, 400).
Proof.
  apply (estimate_tax_null_surface no_numeric_strings default_config
           (commune_wide 3)
           (dict [("tax_type", PStr "tib"); ("surface_couverte", PNone);
                  ("reference_price_per_m2", PFloat 200)]));
    reflexivity.
Defined.

(** ** The check of the urban zone and the calculator *)





(** ** When the penalty is defined *)

(** X25. With a rounding precision that is not negative and a valid as-of
    date, [compute_late_payment_penalty_for_year] returns a number exactly
    for the tax years from -1 to 9997 (year 0 included, by its guard). For
    every other tax year [N] it raises what [datetime(N + 2, 1, 1)] raises:
    [ValueError] when [N + 2] fits a C int, [OverflowError] when it does
    not. *)
Theorem penalty_defined_iff
    (cfg : config) (utcnow : datetime) (principal : float) (N : Z)
    (section : string) (as_of : datetime) :
  valid_datetime as_of →
  0 <= currency_decimals cfg section →
  (returns (compute_late_payment_penalty_for_year cfg utcnow principal N
              section (Some as_of))
   ↔ -1 <= N <= 9997)
  ∧ (¬ -1 <= N <= 9997 →
     compute_late_payment_penalty_for_year cfg utcnow principal N section
       (Some as_of)
     = Raised (if (- 2 ^ 31 <=? N + 2) && (N + 2 <? 2 ^ 31)
               then ValueError else OverflowError)).
Proof.
  intros Hv Hdec.
  assert (Hout : ¬ -1 <= N <= 9997 →
                 compute_late_payment_penalty_for_year cfg utcnow principal N
                   section (Some as_of)
                 = Raised (if (- 2 ^ 31 <=? N + 2) && (N + 2 <? 2 ^ 31)
                           then ValueError else OverflowError)).
  { intros Hrange.
    unfold compute_late_payment_penalty_for_year, datetime_jan_1, fits_c_int.
    rewrite (proj2 (Z.eqb_neq N 0)) by lia.
    destruct ((- 2 ^ 31 <=? N + 2) && (N + 2 <? 2 ^ 31)); [|reflexivity].
    cbn [negb].
    destruct (Z.leb_spec 1 (N + 2)), (Z.leb_spec (N + 2) 9999);
      try lia; reflexivity. }
  split; [|exact Hout]. split.
  - intros [r Hr].
    destruct (Z_le_dec (-1) N) as [Hlo|Hlo]; [|rewrite Hout in Hr by lia; discriminate Hr].
    destruct (Z_le_dec N 9997) as [Hhi|Hhi]; [|rewrite Hout in Hr by lia; discriminate Hr].
    lia.
  - intros Hrange. unfold compute_late_payment_penalty_for_year.
    destruct (N =? 0) eqn:HN0; [eexists; reflexivity|].
    apply Z.eqb_neq in HN0.
    rewrite datetime_jan_1_in_range by lia.
    cbn [obind].
    destruct (datetime_ltb as_of _); [eexists; reflexivity|].
    cbn [year month].
    assert (Hsmall : 120000 <= Binary64.max_finite)
      by (vm_compute; discriminate).
    destruct Hv as (Hy & Hm & _).
    destruct (int_to_float_returns
                (Z.max 0 ((year as_of - (N + 2)) * 12 + (month as_of - 1))))
      as [months ->]; [lia|].
    cbn [obind]. apply round_returns, Hdec.
Qed.

Lemma penalty_defined_iff_witness :
  (returns (compute_late_payment_penalty_for_year default_config
              (Datetime 2026 11 3 0 0 0 0) 100 9998 "TIB"
              (Some (Datetime 2025 6 15 0 0 0 0)))
   ↔ -1 <= 9998 <= 9997)
  ∧ (¬ -1 <= 9998 <= 9997 →
     compute_late_payment_penalty_for_year default_config
       (Datetime 2026 11 3 0 0 0 0) 100 9998 "TIB"
       (Some (Datetime 2025 6 15 0 0 0 0))
     = Raised (if (- 2 ^ 31 <=? 9998 + 2) && (9998 + 2 <? 2 ^ 31)
               then ValueError else OverflowError)).
Proof.
  apply (penalty_defined_iff default_config (Datetime 2026 11 3 0 0 0 0)
           100 9998 "TIB" (Datetime 2025 6 15 0 0 0 0)).
  - unfold valid_datetime. simpl. lia.
  - vm_compute. discriminate.
Defined.

(** ** Rounding *)

(** X26. With a precision that is not negative [_round] returns a number
    for every amount and raises nothing; an amount that is zero, infinite or
    NaN is returned as it is. *)
Theorem round_never_raises
    (cfg : config) (amount : float) (section : string) :
  0 <= currency_decimals cfg section →
  returns (_round cfg amount section)
  ∧ (is_zero amount = true ∨ is_infinity amount = true ∨ is_nan amount = true →
     _round cfg amount section = Returned amount).
Proof.
  intros Hdec. split; [apply py_round_returns, Hdec|].
  unfold _round, py_round, is_zero, is_infinity, is_nan.
  rewrite !FloatAxioms.eqb_spec, abs_spec.
  change (Prim2SF 0) with (S754_zero false).
  change (Prim2SF infinity) with (S754_infinity false).
  destruct (Prim2SF amount) as [s|s| |s m e]; try reflexivity.
  unfold SFeqb. cbn. rewrite Z.compare_refl.
  change (Pos.compare_cont Eq m m) with (Pos.compare m m).
  rewrite Pos.compare_refl. destruct s; cbn; intros [H|[H|H]]; discriminate H.
Qed.

Lemma round_never_raises_witness :
  returns (_round default_config 0.0016 "TIB")
  ∧ (is_zero 0.0016 = true ∨ is_infinity 0.0016 = true ∨ is_nan 0.0016 = true →
     _round default_config 0.0016 "TIB" = Returned 0.0016%float).
Proof.
  apply (round_never_raises default_config 0.0016 "TIB").
  vm_compute. discriminate.
Defined.

(** ** The service count query *)

(** X27. [calculate_tib] handles no exception of the service count query:
    on a property that it reads up to the query (not exempt, surface and
    reference price converted, commune and locality read), what the query
    raises is raised by the calculation. *)
Theorem calculate_tib_query_raises
    (float_of_str : string → outcome float) (cfg : config)
    (services : service_table) (o : gmap string pyval)
    (surface price : float) (commune : pyval) (locality : string) (e : exn) :
  tib_reads float_of_str o surface price commune locality →
  tib_services_count services commune locality = Raised e →
  calculate_tib float_of_str cfg services o = Raised e.
Proof.
  intros Hreads Hcount.
  rewrite (calculate_tib_taxed _ _ _ _ _ _ _ _ Hreads). cbv zeta.
  rewrite Hcount. reflexivity.
Qed.

Lemma calculate_tib_query_raises_witness :
  calculate_tib no_numeric_strings default_config
    {| count_locality := fun _ _ => Returned 0%nat;
       count_commune_wide := fun _ => Raised OverflowError |}
    (mock_property (PFloat 150) (PFloat 200)) = Raised OverflowError.
Proof.
  apply (calculate_tib_query_raises no_numeric_strings default_config
           {| count_locality := fun _ _ => Returned 0%nat;
              count_commune_wide := fun _ => Raised OverflowError |}
           (mock_property (PFloat 150) (PFloat 200))
           150%float 200%float (PInt 1) "" OverflowError).
  - split; try reflexivity. exists (PFloat 150). split; reflexivity.
  - reflexivity.
Defined.
